(** * Thira Beach Home chatbot: request flows of app.py, twilioo.py, postmark.py

    The three Python modules are embedded as functions in a small
    state-and-exception monad.  The state is the SQLite file [rooms.db]
    together with the chronological list of effects a request performs
    (SQL operations, calls to the hosted model, HTTP posts, Streamlit
    elements) and of the calls to the named functions the properties speak
    about.  The hosted model and the mail API are oracles: variables of the
    sections below.  Logging is left out: it changes none of the values
    below. *)

From Stdlib Require Import String Ascii List ZArith QArith Bool Lia DecimalString.
Import ListNotations.
Local Open Scope list_scope.
Local Open Scope Z_scope.
Local Open Scope string_scope.
Set Warnings "-register-all".


(** ** Python values *)

(** The line feed, Python's ["\n"]. *)
Definition nl : string := String (ascii_of_nat 10) EmptyString.

(** [sep.join(parts)] is [String.concat sep parts].  A text given line by
    line, as a triple-quoted literal of the source reads. *)
Definition lines (ls : list string) : string := String.concat nl ls.

(** Values that reach the code from parsed JSON ([request.get_json()]);
    floating-point numbers are left out.  A dict is the list of its items;
    [dict_get] reads the first item of a key. *)
Inductive pyval : Type :=
| PNone
| PBool (b : bool)
| PInt (z : Z)
| PStr (s : string)
| PList (l : list pyval)
| PDict (d : list (string * pyval)).

(** [bool(v)], the test of [if v] and [not v]. *)
Definition truthy (v : pyval) : bool :=
  match v with
  | PNone => false
  | PBool b => b
  | PInt z => negb (z =? 0)%Z
  | PStr s => negb (s =? "")%string
  | PList l => match l with [] => false | _ => true end
  | PDict d => match d with [] => false | _ => true end
  end.

(** [bool(s)] for a value that is a [str] or [None]. *)
Definition truthy_str (o : option string) : bool :=
  match o with
  | None => false
  | Some s => negb (s =? "")%string
  end.

Definition str_of_Z (z : Z) : string := NilZero.string_of_int (Z.to_int z).

(** [f"{v}"]: [str(v)].  The text of a list or a dict is Python's [repr],
    taken as the parameter [repr]. *)
Definition py_str (repr : pyval -> string) (v : pyval) : string :=
  match v with
  | PNone => "None"
  | PBool true => "True"
  | PBool false => "False"
  | PInt z => str_of_Z z
  | PStr s => s
  | PList _ | PDict _ => repr v
  end.

Fixpoint dict_get (k : string) (d : list (string * pyval)) : option pyval :=
  match d with
  | [] => None
  | (k', v) :: d' => if (k' =? k)%string then Some v else dict_get k d'
  end.

(** [d.get(k)]: [None] when the key is absent. *)
Definition get (d : list (string * pyval)) (k : string) : pyval :=
  match dict_get k d with
  | Some v => v
  | None => PNone
  end.

(** [d.get(k, default)]. *)
Definition get_default (d : list (string * pyval)) (k : string) (default : pyval) : pyval :=
  match dict_get k d with
  | Some v => v
  | None => default
  end.

(** [str.strip()]: leading and trailing whitespace removed.  A string
    stands for the UTF-8 encoding of Python's text.  Python's whitespace
    is the code points for which [str.isspace] holds: U+0009 to U+000D,
    U+001C to U+0020, U+0085, U+00A0, U+1680, U+2000 to U+200A, U+2028,
    U+2029, U+202F, U+205F and U+3000.  In UTF-8 they take one byte
    ([space1]), two ([space2]: C2 85, C2 A0) or three ([space3]:
    E1 9A 80, E2 80 80 to E2 80 8A, E2 80 A8, E2 80 A9, E2 80 AF,
    E2 81 9F, E3 80 80). *)
Definition space1 (a : nat) : bool :=
  ((9 <=? a)%nat && (a <=? 13)%nat) || ((28 <=? a)%nat && (a <=? 32)%nat).

Definition space2 (a b : nat) : bool :=
  (a =? 194)%nat && ((b =? 133)%nat || (b =? 160)%nat).

Definition space3 (a b c : nat) : bool :=
  ((a =? 225)%nat && (b =? 154)%nat && (c =? 128)%nat)
  || ((a =? 226)%nat && (b =? 128)%nat
      && (((128 <=? c)%nat && (c <=? 138)%nat)
          || (c =? 168)%nat || (c =? 169)%nat || (c =? 175)%nat))
  || ((a =? 226)%nat && (b =? 129)%nat && (c =? 159)%nat)
  || ((a =? 227)%nat && (b =? 128)%nat && (c =? 128)%nat).

(** The whitespace at the head of a string removed, code point by code
    point.  With [backwards] the string is read from its end: the bytes of
    a code point then come last byte first. *)
Fixpoint strip_head (backwards : bool) (s : string) : string :=
  match s with
  | EmptyString => EmptyString
  | String c1 s1 =>
      if space1 (nat_of_ascii c1) then strip_head backwards s1
      else
        match s1 with
        | EmptyString => s
        | String c2 s2 =>
            if (if backwards
                then space2 (nat_of_ascii c2) (nat_of_ascii c1)
                else space2 (nat_of_ascii c1) (nat_of_ascii c2))
            then strip_head backwards s2
            else
              match s2 with
              | EmptyString => s
              | String c3 s3 =>
                  if (if backwards
                      then space3 (nat_of_ascii c3) (nat_of_ascii c2) (nat_of_ascii c1)
                      else space3 (nat_of_ascii c1) (nat_of_ascii c2) (nat_of_ascii c3))
                  then strip_head backwards s3
                  else s
              end
        end
  end.

(** A string read from its end. *)
Fixpoint string_rev (s : string) : string :=
  match s with
  | EmptyString => EmptyString
  | String c s' => string_rev s' ++ String c EmptyString
  end.

Definition lstrip (s : string) : string := strip_head false s.

Definition rstrip (s : string) : string :=
  string_rev (strip_head true (string_rev s)).

Definition strip (s : string) : string := rstrip (lstrip s).

(** ** The room store *)

(** A value of a column of [room_data]: SQL NULL, an integer or a text. *)
Inductive cell : Type :=
| Null
| Integer (z : Z)
| Text (s : string).

(** [f"{c}"] for a value read from the store. *)
Definition cell_str (c : cell) : string :=
  match c with
  | Null => "None"
  | Integer z => str_of_Z z
  | Text s => s
  end.

(** A row of [SELECT title, description FROM room_data]. *)
Definition row : Type := cell * cell.

(** The file [rooms.db] as a request finds it: it cannot be opened
    ([sqlite3.connect] raises [sqlite3.Error]), it has no table
    [room_data], or it has the table with its rows in the order a
    [SELECT] returns them. *)
Inductive database : Type :=
| Unavailable (err : string)
| NoTable
| Table (rows : list row).

(** The room records of the store. *)
Definition records (d : database) : list row :=
  match d with
  | Table rows => rows
  | _ => []
  end.

Inductive sql_stmt : Type :=
| CreateTableIfNotExists   (* CREATE TABLE IF NOT EXISTS room_data (...) *)
| SelectCount              (* SELECT COUNT( * ) FROM room_data *)
| SelectTitleDescription.  (* SELECT title, description FROM room_data *)

Inductive sql_op : Type :=
| Connect
| Execute (s : sql_stmt)
| Commit
| Close.

(** ** Requests to the outside *)

(** [client.chat.completions.create(...)]: the arguments the source gives
    ([stop=None] and [stream=False] are the client's defaults). *)
Record chat_request : Type := mkChat {
  model : string;
  messages : list (string * string);   (* role, content *)
  max_tokens : Z;
  temperature : option Q;
  top_p : option Z
}.

(** [requests.post(url, json=..., headers=...)]. *)
Record http_post : Type := mkPost {
  url : string;
  headers : list (string * pyval);
  json : pyval
}.

Record http_reply : Type := mkReply {
  status_code : Z;
  text : string
}.

(** What Streamlit renders. *)
Inductive st_element : Type :=
| StTitle (s : string)
| StMarkdown (s : string)
| StWrite (s : string)
| StError (s : string)
| StSuccess (s : string)
| StInfo (s : string).

(** ** Exceptions, effects and the monad *)

Inductive exn : Type :=
| SqliteError (msg : string)         (* sqlite3.Error and its subclasses *)
| ValueError (msg : string)
| UnboundLocalError (msg : string)
| AttributeError (msg : string)
| ClientError (msg : string).        (* raised inside the groq or requests client *)

(** [str(e)]. *)
Definition exn_str (e : exn) : string :=
  match e with
  | SqliteError m | ValueError m | UnboundLocalError m
  | AttributeError m | ClientError m => m
  end.

Definition is_sqlite_error (e : exn) : bool :=
  match e with
  | SqliteError _ => true
  | _ => false
  end.

(** What a request does, in order: the effects, and the entries into the
    functions the properties name. *)
Inductive event : Type :=
| CallClassify (query : pyval)                    (* classify_query(query) *)
| CallGenerate (query : pyval) (context : string) (* generate_response(query, context) *)
| CallFetchRooms                                  (* fetch_room_details() *)
| CallSendEmail (to subject body : pyval)         (* send_email(to, subject, body) *)
| Groq (req : chat_request)
| Sql (op : sql_op)
| HttpPost (req : http_post)
| St (el : st_element).

Record world : Type := mkWorld {
  db : database;
  trace : list event
}.

(** The world at the start of a request. *)
Definition fresh (d : database) : world := mkWorld d [].

Inductive outcome (A : Type) : Type :=
| Return (a : A)
| Raise (e : exn).
Arguments Return {A} a.
Arguments Raise {A} e.

Definition M (A : Type) : Type := world -> outcome A * world.

Definition ret {A} (a : A) : M A := fun w => (Return a, w).

Definition raise {A} (e : exn) : M A := fun w => (Raise e, w).

Definition bind {A B} (m : M A) (k : A -> M B) : M B :=
  fun w =>
    match m w with
    | (Return a, w') => k a w'
    | (Raise e, w') => (Raise e, w')
    end.

Notation "x <- c1 ;; c2" := (bind c1 (fun x => c2))
  (at level 61, c1 at next level, right associativity).
Notation "c1 ;; c2" := (bind c1 (fun _ => c2))
  (at level 61, right associativity).

(** [try: body / except Exception as e: handler(e)]. *)
Definition try_except {A} (body : M A) (handler : exn -> M A) : M A :=
  fun w =>
    match body w with
    | (Return a, w') => (Return a, w')
    | (Raise e, w') => handler e w'
    end.

(** [try: body / except sqlite3.Error as e: handler(e)]: another exception
    passes through. *)
Definition try_except_sqlite {A} (body : M A) (handler : exn -> M A) : M A :=
  try_except body (fun e => if is_sqlite_error e then handler e else raise e).

(** [try: body / finally: final]: [final] runs on every way out of [body],
    and an exception of [final] replaces the outcome of [body]. *)
Definition try_finally {A} (body : M A) (final : M unit) : M A :=
  fun w =>
    let (r, w1) := body w in
    match final w1 with
    | (Return _, w2) => (r, w2)
    | (Raise e, w2) => (Raise e, w2)
    end.

Definition emit (e : event) : M unit :=
  fun w => (Return tt, mkWorld (db w) (trace w ++ [e])%list).

(** An oracle's answer enters the computation. *)
Definition lift {A} (r : outcome A) : M A := fun w => (r, w).

(** *** sqlite3 *)

(** [sqlite3.connect('rooms.db')]. *)
Definition sqlite3_connect : M unit :=
  emit (Sql Connect) ;;
  fun w =>
    match db w with
    | Unavailable err => (Raise (SqliteError err), w)
    | _ => (Return tt, w)
    end.

Definition no_such_table : exn := SqliteError "no such table: room_data".

(** [cursor.execute('CREATE TABLE IF NOT EXISTS room_data (...)')]. *)
Definition execute_create : M unit :=
  emit (Sql (Execute CreateTableIfNotExists)) ;;
  fun w =>
    match db w with
    | Unavailable err => (Raise (SqliteError err), w)
    | NoTable => (Return tt, mkWorld (Table []) (trace w))
    | Table _ => (Return tt, w)
    end.

(** [cursor.execute('SELECT COUNT( * ) FROM room_data')] and
    [cursor.fetchone()[0]]. *)
Definition execute_count : M Z :=
  emit (Sql (Execute SelectCount)) ;;
  fun w =>
    match db w with
    | Unavailable err => (Raise (SqliteError err), w)
    | NoTable => (Raise no_such_table, w)
    | Table rows => (Return (Z.of_nat (length rows)), w)
    end.

(** [cursor.execute('SELECT title, description FROM room_data')] and
    [cursor.fetchall()]. *)
Definition execute_select : M (list row) :=
  emit (Sql (Execute SelectTitleDescription)) ;;
  fun w =>
    match db w with
    | Unavailable err => (Raise (SqliteError err), w)
    | NoTable => (Raise no_such_table, w)
    | Table rows => (Return rows, w)
    end.

Definition conn_commit : M unit := emit (Sql Commit).

Definition conn_close : M unit := emit (Sql Close).

(** *** Reading a trace *)

(** The calls of [generate_response], as (query, context). *)
Fixpoint generator_calls (tr : list event) : list (pyval * string) :=
  match tr with
  | [] => []
  | CallGenerate q c :: tr' => (q, c) :: generator_calls tr'
  | _ :: tr' => generator_calls tr'
  end.

Fixpoint classifier_calls (tr : list event) : list pyval :=
  match tr with
  | [] => []
  | CallClassify q :: tr' => q :: classifier_calls tr'
  | _ :: tr' => classifier_calls tr'
  end.

(** The operations on the store. *)
Fixpoint store_ops (tr : list event) : list sql_op :=
  match tr with
  | [] => []
  | Sql op :: tr' => op :: store_ops tr'
  | _ :: tr' => store_ops tr'
  end.

Fixpoint fetch_calls (tr : list event) : nat :=
  match tr with
  | [] => 0%nat
  | CallFetchRooms :: tr' => S (fetch_calls tr')
  | _ :: tr' => fetch_calls tr'
  end.

(** The calls of [send_email], as (to, subject, body). *)
Fixpoint email_calls (tr : list event) : list (pyval * pyval * pyval) :=
  match tr with
  | [] => []
  | CallSendEmail t s b :: tr' => (t, s, b) :: email_calls tr'
  | _ :: tr' => email_calls tr'
  end.

Fixpoint http_posts (tr : list event) : list http_post :=
  match tr with
  | [] => []
  | HttpPost r :: tr' => r :: http_posts tr'
  | _ :: tr' => http_posts tr'
  end.

(** What Streamlit has rendered. *)
Fixpoint rendered (tr : list event) : list st_element :=
  match tr with
  | [] => []
  | St el :: tr' => el :: rendered tr'
  | _ :: tr' => rendered tr'
  end.

(** ** What both programs share *)

(** One block of the room context:
    [f"Room: {title}\nDescription: {description}"]. *)
Definition room_block (r : row) : string :=
  "Room: " ++ cell_str (fst r) ++ nl ++ "Description: " ++ cell_str (snd r).

(** ["\n\n".join([f"Room: ..." for title, description in results])]. *)
Definition combined_description (results : list row) : string :=
  String.concat (nl ++ nl) (map room_block results).

(** The user message of [generate_response]:
    [f"Query: {query}\nContext: {context}"]. *)
Definition generate_content (query context : string) : string :=
  "Query: " ++ query ++ nl ++ "Context: " ++ context.

(** ** app.py: the Streamlit page *)

Module App.

Definition HOTEL_INFO : string := lines [
    "";
    "Thira Beach Home is a luxurious seaside retreat that seamlessly blends Italian-Kerala heritage architecture with modern luxury, creating an unforgettable experience. Nestled just 150 meters from the magnificent Arabian Sea, our beachfront property offers a secluded and serene escape with breathtaking 180-degree ocean views. ";
    "";
    "The accommodations feature Kerala-styled heat-resistant tiled roofs, natural stone floors, and lime-plastered walls, ensuring a perfect harmony of comfort and elegance. Each of our Luxury Ocean View Rooms is designed to provide an exceptional stay, featuring a spacious 6x6.5 ft cot with a 10-inch branded mattress encased in a bamboo-knitted outer layer for supreme comfort.";
    "";
    "Our facilities include:";
    "- Personalized climate control with air conditioning and ceiling fans";
    "- Wardrobe and wall mirror";
    "- Table with attached drawer and two chairs";
    "- Additional window bay bed for relaxation";
    "- 43-inch 4K television";
    "- Luxury bathroom with body jets, glass roof, and oval-shaped bathtub";
    "- Total room area of 250 sq. ft.";
    "";
    "Modern amenities:";
    "- RO and UV-filtered drinking water";
    "- 24/7 hot water";
    "- Water processing unit with softened water";
    "- Uninterrupted power backup";
    "- High-speed internet with WiFi";
    "- Security with CCTV surveillance";
    "- Electric charging facility";
    "- Accessible design for differently-abled persons";
    "";
    "Additional services:";
    "- Yoga classes";
    "- Cycling opportunities";
    "- On-site dining at Samudrakani Kitchen";
    "- Stylish lounge and dining area";
    "- Long veranda with ocean views";
    "";
    "Location: Kothakulam Beach, Valappad, Thrissur, Kerala";
    "Contact: +91-94470 44788";
    "Email: thirabeachhomestay@gmail.com";
    ""
  ].

Definition MODEL : string := "llama-3.3-70b-versatile".

Definition SYSTEM_PROMPT : string :=
  "You are Maya, a friendly and professional hotel receptionist at Thira Beach Home. Your job is to assist guests by providing accurate and helpful information about the hotel, its amenities, and room availability..".

(** The prompt of [classify_query], an f-string over [query]. *)
Definition classify_prompt (query : string) : string := lines [
    "Classify the following query into one of two categories:";
    "        1. Checking details - if the query is about wanting to book a hotel room";
    "        2. Getting information - if the query is about wanting to know general information related to the hotel.";
    "";
    "        Query: " ++ query;
    "        ";
    "        Respond with only the category number (1 or 2)."
  ].

Definition classify_request (query : string) : chat_request :=
  mkChat MODEL [("user", classify_prompt query)] 10 (Some (1 # 2)%Q) (Some 1).

Definition generate_request (query context : string) : chat_request :=
  mkChat MODEL
    [("system", SYSTEM_PROMPT); ("user", generate_content query context)]
    300 (Some (1 # 2)%Q) (Some 1).

(** The message of the [UnboundLocalError] that [conn.close()] raises when
    [conn] was never assigned. *)
Definition unbound_conn : string :=
  "cannot access local variable 'conn' where it is not associated with a value".

Section Flow.

(** [response.choices[0].message.content] of the hosted model's answer to a
    request, or the exception raised on the way. *)
Variable groq_create : chat_request -> outcome string.

(** [os.getenv("GROQ_API_KEY")] after [load_dotenv()]. *)
Variable GROQ_API_KEY : option string.

Definition init_app : M unit :=
  if truthy_str GROQ_API_KEY then ret tt
  else raise (ValueError
         "GROQ_API_KEY not found in environment variables. Please check your .env file.").

(** [sqlite3.connect] stands inside the [try]: when it raises, the handler
    raises again and the [finally] clause closes a [conn] that was never
    assigned. *)
Definition init_database : M unit :=
  fun w =>
    match sqlite3_connect w with
    | (Raise _, w1) => (Raise (UnboundLocalError unbound_conn), w1)
    | (Return _, w1) =>
        try_finally
          (try_except_sqlite
             (execute_create ;;
              count <- execute_count ;;
              conn_commit)
             (fun e => raise e))
          conn_close w1
    end.

(** The connection, or [None] after a [sqlite3.Error]. *)
Definition connect_to_db : M (option unit) :=
  try_except_sqlite
    (sqlite3_connect ;; ret (Some tt))
    (fun e =>
       emit (St (StError ("Database connection error: " ++ exn_str e))) ;;
       ret None).

Definition fetch_room_details : M string :=
  emit CallFetchRooms ;;
  conn <- connect_to_db ;;
  match conn with
  | None => ret "Unable to fetch room details due to database connection error."
  | Some _ =>
      try_finally
        (try_except_sqlite
           (results <- execute_select ;;
            match results with
            | _ :: _ => ret (combined_description results)
            | [] => ret "No room details available."
            end)
           (fun e => ret ("Error fetching room details: " ++ exn_str e)))
        conn_close
  end.

(** The category, or [None] after any exception. *)
Definition classify_query (query : string) : M (option string) :=
  emit (CallClassify (PStr query)) ;;
  try_except
    (emit (Groq (classify_request query)) ;;
     content <- lift (groq_create (classify_request query)) ;;
     ret (Some (strip content)))
    (fun e =>
       emit (St (StError ("Error classifying query: " ++ exn_str e))) ;;
       ret None).

(** What [classify_query] returns, read off the oracle. *)
Definition classify_result (query : string) : option string :=
  match groq_create (classify_request query) with
  | Return content => Some (strip content)
  | Raise _ => None
  end.

Definition generate_response (query context : string) : M string :=
  emit (CallGenerate (PStr query) context) ;;
  try_except
    (emit (Groq (generate_request query context)) ;;
     lift (groq_create (generate_request query context)))
    (fun e => ret ("Error generating response: " ++ exn_str e)).

(** What [generate_response] returns, read off the oracle. *)
Definition generate_result (query context : string) : string :=
  match groq_create (generate_request query context) with
  | Return content => content
  | Raise e => "Error generating response: " ++ exn_str e
  end.

(** [st.success("Response:")] and [st.write(response)], the end of a run
    that has a reply. *)
Definition display (response : string) : M unit :=
  emit (St (StSuccess "Response:")) ;;
  emit (St (StWrite response)).

(** One run of the script: [query] is the text of the text area and
    [clicked] tells whether the run follows a click on the button. *)
Definition main (query : string) (clicked : bool) : M unit :=
  try_except
    (init_app ;;
     init_database ;;
     emit (St (StTitle "Thira Beach Home")) ;;
     emit (St (StMarkdown "---")) ;;
     emit (St (StWrite "Welcome! Ask any questions about our hotel or room bookings.")) ;;
     if clicked then
       if (query =? "")%string then
         emit (St (StError "Please enter a query before submitting."))
       else
         query_type <- classify_query query ;;
         if negb (truthy_str query_type) then
           emit (St (StError "Failed to classify your query. Please try again."))
         else if match query_type with Some t => (t =? "1")%string | None => false end then
           room_details <- fetch_room_details ;;
           response <- generate_response query room_details ;;
           display response
         else if match query_type with Some t => (t =? "2")%string | None => false end then
           response <- generate_response query HOTEL_INFO ;;
           display response
         else
           emit (St (StError "Invalid query classification. Please try again."))
     else ret tt)
    (fun e =>
       emit (St (StError ("An error occurred: " ++ exn_str e))) ;;
       emit (St (StInfo
         "Please make sure you have set up your .env file with the GROQ_API_KEY"))).

End Flow.

End App.

(** ** Flask *)

Inductive payload : Type :=
| Json (v : pyval)                (* jsonify(v) *)
| Raw (s : string)                (* a string returned as the body *)
| TwiML (message : string)        (* str() of a MessagingResponse with one <Message> *)
| InternalServerError.            (* the page Flask answers an unhandled exception with *)

Record response : Type := mkResponse {
  body : payload;
  status : Z;
  content_type : string
}.

(** [jsonify(d)], alone or with a status code. *)
Definition jsonify (d : list (string * pyval)) (code : Z) : response :=
  mkResponse (Json (PDict d)) code "application/json".

(** Flask around a view function: an exception that leaves the view is
    answered with status 500. *)
Definition serve (view : M response) (w : world) : response * world :=
  match view w with
  | (Return r, w') => (r, w')
  | (Raise _, w') => (mkResponse InternalServerError 500 "text/html", w')
  end.

(** [data.get] on a value that is no dict. *)
Definition no_get : exn := AttributeError "object has no attribute 'get'".

(** ** twilioo.py: the JSON endpoint and the messaging webhook *)

Module Twilioo.

Definition HOTEL_INFO : string :=
  "Thira Beach Home is a luxurious seaside retreat that seamlessly blends Italian-Kerala heritage architecture with modern luxury...".

Definition MODEL : string := "llama-3.3-70b-versatile".

Definition SYSTEM_PROMPT : string := "You are Maya, a friendly hotel receptionist.".

Definition classify_prompt (query : string) : string := lines [
    "Classify the following query:";
    "    1. Checking details - if it's about booking a hotel room";
    "    2. Getting information - if it's about general hotel info.";
    "    ";
    "    Query: " ++ query;
    "    Respond with only the number (1 or 2)."
  ].

Definition classify_request (query : string) : chat_request :=
  mkChat MODEL [("user", classify_prompt query)] 10 None None.

Definition generate_request (query context : string) : chat_request :=
  mkChat MODEL
    [("system", SYSTEM_PROMPT); ("user", generate_content query context)]
    300 None None.

Section Flow.

(** The module is loaded: [GROQ_API_KEY] is set (the module body raises
    [ValueError] otherwise and no view exists). *)

Variable groq_create : chat_request -> outcome string.

(** Python's [repr] of a list or a dict, for a query that is one. *)
Variable repr : pyval -> string.

(** No handler here: an exception of [sqlite3] leaves the function. *)
Definition fetch_room_details : M string :=
  emit CallFetchRooms ;;
  sqlite3_connect ;;
  results <- execute_select ;;
  conn_close ;;
  match results with
  | _ :: _ => ret (combined_description results)
  | [] => ret "No room details available."
  end.

Definition classify_query (query : pyval) : M string :=
  emit (CallClassify query) ;;
  emit (Groq (classify_request (py_str repr query))) ;;
  content <- lift (groq_create (classify_request (py_str repr query))) ;;
  ret (strip content).

(** What [classify_query] returns, read off the oracle. *)
Definition classify_result (query : pyval) : outcome string :=
  match groq_create (classify_request (py_str repr query)) with
  | Return content => Return (strip content)
  | Raise e => Raise e
  end.

Definition generate_response (query : pyval) (context : string) : M string :=
  emit (CallGenerate query context) ;;
  emit (Groq (generate_request (py_str repr query) context)) ;;
  lift (groq_create (generate_request (py_str repr query) context)).

(** What [generate_response] returns, read off the oracle. *)
Definition generate_result (query : pyval) (context : string) : outcome string :=
  groq_create (generate_request (py_str repr query) context).

(** The view of [POST /query]; [data] is [request.get_json()]. *)
Definition handle_query (data : pyval) : M response :=
  match data with
  | PDict d =>
      let query := get_default d "query" (PStr "") in
      if negb (truthy query) then
        ret (jsonify [("error", PStr "Query parameter is required")] 400)
      else
        query_type <- classify_query query ;;
        if (query_type =? "1")%string then
          context <- fetch_room_details ;;
          response <- generate_response query context ;;
          ret (jsonify [("response", PStr response)] 200)
        else if (query_type =? "2")%string then
          response <- generate_response query HOTEL_INFO ;;
          ret (jsonify [("response", PStr response)] 200)
        else
          ret (jsonify [("error", PStr "Invalid query classification")] 500)
  | _ => raise no_get
  end.

(** [request.form.get(k)]: the first value of the field. *)
Fixpoint form_get (k : string) (form : list (string * string)) : option string :=
  match form with
  | [] => None
  | (k', v) :: form' => if (k' =? k)%string then Some v else form_get k form'
  end.

Definition WEBHOOK_ERROR : string :=
  "<Response><Message>Error: Phone number and message are required.</Message></Response>".

(** The view of [POST /twilio_webhook]; [form] is [request.form]. *)
Definition twilio_webhook (form : list (string * string)) : M response :=
  let phone_number := form_get "From" form in
  let message_body := form_get "Body" form in
  if negb (truthy_str phone_number) || negb (truthy_str message_body) then
    ret (mkResponse (Raw WEBHOOK_ERROR) 400 "application/xml")
  else
    let message_body := match message_body with Some s => PStr s | None => PNone end in
    query_type <- classify_query message_body ;;
    response_text <-
      (if (query_type =? "1")%string then
         details <- fetch_room_details ;;
         if negb (details =? "")%string then generate_response message_body details
         else ret "No details found for that number."
       else if (query_type =? "2")%string then
         generate_response message_body HOTEL_INFO
       else
         ret "Unable to classify your query.") ;;
    ret (mkResponse (TwiML response_text) 200 "application/xml").

End Flow.

End Twilioo.

(** ** postmark.py: the mail endpoint *)

Module Postmark.

Definition DEFAULT_SUBJECT : string := "Room Availability at Thira Beach Home".

Definition DEFAULT_BODY : string := "Here are the details of the available rooms.".

Definition opt_val (o : option string) : pyval :=
  match o with
  | Some s => PStr s
  | None => PNone
  end.

Section Flow.

(** [requests.post]: the reply of the mail API, or the exception raised. *)
Variable requests_post : http_post -> outcome http_reply.

(** [os.getenv] of the two settings. *)
Variable POSTMARK_API_KEY : option string.
Variable SENDER_EMAIL : option string.

Definition postmark_request (to_email subject body : pyval) : http_post :=
  mkPost "https://api.postmarkapp.com/email"
    [("Accept", PStr "application/json");
     ("Content-Type", PStr "application/json");
     ("X-Postmark-Server-Token", opt_val POSTMARK_API_KEY)]
    (PDict [("From", opt_val SENDER_EMAIL);
            ("To", to_email);
            ("Subject", subject);
            ("TextBody", body)]).

Definition send_email (to_email subject body : pyval) : M (list (string * pyval)) :=
  emit (CallSendEmail to_email subject body) ;;
  emit (HttpPost (postmark_request to_email subject body)) ;;
  reply <- lift (requests_post (postmark_request to_email subject body)) ;;
  if (status_code reply =? 200)%Z then
    ret [("success", PBool true); ("message", PStr "Email sent successfully")]
  else
    ret [("success", PBool false); ("error", PStr (text reply))].

(** The view of [POST /send_email]; [data] is [request.get_json()]. *)
Definition handle_send_email (data : pyval) : M response :=
  match data with
  | PDict d =>
      let email := get d "email" in
      let subject := get_default d "subject" (PStr DEFAULT_SUBJECT) in
      let body := get_default d "body" (PStr DEFAULT_BODY) in
      if negb (truthy email) then
        ret (jsonify [("error", PStr "Email is required")] 400)
      else
        result <- send_email email subject body ;;
        ret (jsonify result 200)
  | _ => raise no_get
  end.

End Flow.

End Postmark.

(** ** Vocabulary of the statements *)

(** The world after more events. *)
Definition log (w : world) (es : list event) : world :=
  mkWorld (db w) (trace w ++ es)%list.

(** The file can be opened. *)
Definition available (d : database) : bool :=
  match d with
  | Unavailable _ => false
  | _ => true
  end.

(** The store after a request, seen from the store before it: the same, or
    the table [room_data] created empty where there was none. *)
Definition grown (d d' : database) : Prop :=
  d' = d \/ (d = NoTable /\ d' = Table []).

(** A computation keeps the store within a relation. *)
Definition preserves (R : database -> database -> Prop) {A} (m : M A) : Prop :=
  forall w, R (db w) (db (snd (m w))).

(** An operation that opens, reads or closes: it writes nothing. *)
Definition reads_only (op : sql_op) : bool :=
  match op with
  | Connect | Close => true
  | Execute SelectCount | Execute SelectTitleDescription => true
  | Execute CreateTableIfNotExists | Commit => false
  end.

(** What [init_database] does to an available store. *)
Definition init_ops : list sql_op :=
  [Connect; Execute CreateTableIfNotExists; Execute SelectCount; Commit; Close].

(** What [fetch_room_details] does to an available store. *)
Definition fetch_ops : list sql_op :=
  [Connect; Execute SelectTitleDescription; Close].

(** What the page shows before any reply. *)
Definition page_head : list st_element :=
  [StTitle "Thira Beach Home"; StMarkdown "---";
   StWrite "Welcome! Ask any questions about our hotel or room bookings."].

(** What a run of the page does up to the classifier's answer. *)
Definition ui_start (query : string) : list event :=
  (map Sql init_ops ++ map St page_head
   ++ [CallClassify (PStr query); Groq (App.classify_request query)])%list.

(** The context [fetch_room_details] returns on a table. *)
Definition room_context (rows : list row) : string :=
  match rows with
  | [] => "No room details available."
  | _ => combined_description rows
  end.

(** The page Flask answers an unhandled exception with. *)
Definition error_page : response := mkResponse InternalServerError 500 "text/html".

(** The answer of [POST /query] once the generator has answered or raised. *)
Definition json_reply (r : outcome string) : response :=
  match r with
  | Return s => jsonify [("response", PStr s)] 200
  | Raise _ => error_page
  end.

(** The answer of the webhook once the generator has answered or raised. *)
Definition twiml_reply (r : outcome string) : response :=
  match r with
  | Return s => mkResponse (TwiML s) 200 "application/xml"
  | Raise _ => error_page
  end.

(** The dict [send_email] returns for a reply of the mail API. *)
Definition email_result (reply : http_reply) : list (string * pyval) :=
  if (status_code reply =? 200)%Z
  then [("success", PBool true); ("message", PStr "Email sent successfully")]
  else [("success", PBool false); ("error", PStr (text reply))].

(** *** Sample oracles and stores, for the instances below *)

(** A model that answers a one-message request (a classification) with
    [answer] and any other request with a greeting. *)
Definition sample_groq (answer : string) (req : chat_request) : outcome string :=
  match messages req with
  | [_] => Return answer
  | _ => Return "Welcome to Thira Beach Home!"
  end.

Definition sample_rooms : list row :=
  [(Text "Ocean View", Text "Sea-facing room"); (Text "Garden", Null)].

Definition sample_repr (v : pyval) : string := "[]".

Definition sample_post (req : http_post) : outcome http_reply :=
  Return (mkReply 200 "OK").

Definition sample_form : list (string * string) :=
  [("From", "whatsapp:+910000000000"); ("Body", "Is there air conditioning?")].

Definition sample_key : option string := Some "gsk_sample".

Definition sample_query : string := "Is there air conditioning?".

Definition sample_body : list (string * pyval) := [("query", PStr sample_query)].

(** The context of [sample_rooms]. *)
Definition sample_context : string :=
  "Room: Ocean View" ++ nl ++ "Description: Sea-facing room" ++ nl ++ nl
  ++ "Room: Garden" ++ nl ++ "Description: None".

(** *** Counting what a request does *)

Fixpoint count_events (p : event -> bool) (es : list event) : nat :=
  match es with
  | [] => 0%nat
  | e :: es' => ((if p e then 1 else 0) + count_events p es')%nat
  end.

(** A request to the hosted model. *)
Definition is_groq (e : event) : bool :=
  match e with
  | Groq _ => true
  | _ => false
  end.

(** A request to the mail API. *)
Definition is_post (e : event) : bool :=
  match e with
  | HttpPost _ => true
  | _ => false
  end.

(** A statement executed on the store. *)
Definition is_execute (e : event) : bool :=
  match e with
  | Sql (Execute _) => true
  | _ => false
  end.

(** A computation only adds events, and at most [n] of them are of the
    kind [p]. *)
Definition costs (p : event -> bool) (n : nat) {A} (m : M A) : Prop :=
  forall w, exists es,
    trace (snd (m w)) = (trace w ++ es)%list /\ (count_events p es <= n)%nat.


(** The sum of the lengths of the texts of the rows. *)
Fixpoint cells_length (rows : list row) : nat :=
  match rows with
  | [] => 0%nat
  | r :: rows' =>
      (String.length (cell_str (fst r)) + String.length (cell_str (snd r))
       + cells_length rows')%nat
  end.




(** *** More sample oracles *)

(** A model that is out of reach. *)
Definition failing_groq (req : chat_request) : outcome string :=
  Raise (ClientError "Connection error.").

(** A model that classifies with [answer] and fails to generate. *)
Definition classify_only_groq (answer : string) (req : chat_request) : outcome string :=
  match messages req with
  | [_] => Return answer
  | _ => Raise (ClientError "Connection error.")
  end.

(** A mail API that refuses the token. *)
Definition refusing_post (req : http_post) : outcome http_reply :=
  Return (mkReply 401 "Unauthorized").

(** * Properties *)

(** ** Running the monad *)

Lemma log_log (w : world) (es es' : list event) :
  log (log w es) es' = log w (es ++ es')%list.
Proof.
  unfold log; cbn [db trace]. now rewrite app_assoc.
Qed.

Lemma db_log (w : world) (es : list event) : db (log w es) = db w.
Proof. reflexivity. Qed.

Lemma trace_log_fresh (d : database) (es : list event) :
  trace (log (fresh d) es) = es.
Proof. reflexivity. Qed.

Lemma run_emit (e : event) (w : world) : emit e w = (Return tt, log w [e]).
Proof. reflexivity. Qed.

Lemma run_bind {A B} (m : M A) (k : A -> M B) (w w' : world) (a : A) :
  m w = (Return a, w') -> bind m k w = k a w'.
Proof. intros H. unfold bind. now rewrite H. Qed.

Lemma run_bind_raise {A B} (m : M A) (k : A -> M B) (w w' : world) (e : exn) :
  m w = (Raise e, w') -> bind m k w = (Raise e, w').
Proof. intros H. unfold bind. now rewrite H. Qed.

Lemma run_try_except {A} (body : M A) (h : exn -> M A) (w w' : world) (a : A) :
  body w = (Return a, w') -> try_except body h w = (Return a, w').
Proof. intros H. unfold try_except. now rewrite H. Qed.

Lemma run_try_except_raise {A} (body : M A) (h : exn -> M A) (w w' : world) (e : exn) :
  body w = (Raise e, w') -> try_except body h w = h e w'.
Proof. intros H. unfold try_except. now rewrite H. Qed.

Lemma run_try_finally {A} (body : M A) (final : M unit) (w w1 w2 : world)
    (r : outcome A) :
  body w = (r, w1) -> final w1 = (Return tt, w2) ->
  try_finally body final w = (r, w2).
Proof. intros H1 H2. unfold try_finally. now rewrite H1, H2. Qed.

Lemma serve_bind {A} (m : M A) (k : A -> M response) (w w' : world) (a : A) :
  m w = (Return a, w') -> serve (bind m k) w = serve (k a) w'.
Proof. intros H. unfold serve. now rewrite (run_bind m k w w' a H). Qed.

(** A view that ends by wrapping the value of its last computation. *)
Lemma serve_map {A} (m : M A) (k : A -> response) (w w' : world)
    (r : outcome A) :
  m w = (r, w') ->
  serve (x <- m ;; ret (k x)) w =
    (match r with
     | Return a => k a
     | Raise _ => error_page
     end, w').
Proof. intros H. unfold serve, bind. rewrite H. now destruct r. Qed.

Lemma serve_ret (r : response) (w : world) : serve (ret r) w = (r, w).
Proof. reflexivity. Qed.

(** *** The trace readers over a concatenation *)

Lemma generator_calls_app (l1 l2 : list event) :
  generator_calls (l1 ++ l2) = (generator_calls l1 ++ generator_calls l2)%list.
Proof.
  induction l1 as [|e l1 IH]; [reflexivity|].
  destruct e; cbn [generator_calls app]; now rewrite IH.
Qed.

Lemma store_ops_app (l1 l2 : list event) :
  store_ops (l1 ++ l2) = (store_ops l1 ++ store_ops l2)%list.
Proof.
  induction l1 as [|e l1 IH]; [reflexivity|].
  destruct e; cbn [store_ops app]; now rewrite IH.
Qed.

(** ** sqlite3 on each state of the store *)

Lemma connect_available (w : world) :
  available (db w) = true ->
  sqlite3_connect w = (Return tt, log w [Sql Connect]).
Proof.
  intros H. unfold sqlite3_connect, bind. rewrite run_emit.
  rewrite db_log. destruct (db w); [discriminate | reflexivity | reflexivity].
Qed.

Lemma connect_unavailable (w : world) (err : string) :
  db w = Unavailable err ->
  sqlite3_connect w = (Raise (SqliteError err), log w [Sql Connect]).
Proof.
  intros H. unfold sqlite3_connect, bind. rewrite run_emit.
  rewrite db_log, H. reflexivity.
Qed.

Lemma create_available (w : world) :
  available (db w) = true ->
  execute_create w =
    (Return tt, mkWorld (Table (records (db w)))
                  (trace w ++ [Sql (Execute CreateTableIfNotExists)])).
Proof.
  intros H. unfold execute_create, bind. rewrite run_emit.
  rewrite db_log. destruct w as [d tr]; cbn [db trace log] in *.
  destruct d; [discriminate | reflexivity | reflexivity].
Qed.

Lemma count_table (w : world) (rows : list row) :
  db w = Table rows ->
  execute_count w =
    (Return (Z.of_nat (length rows)), log w [Sql (Execute SelectCount)]).
Proof.
  intros H. unfold execute_count, bind. rewrite run_emit.
  rewrite db_log, H. reflexivity.
Qed.

Lemma select_table (w : world) (rows : list row) :
  db w = Table rows ->
  execute_select w = (Return rows, log w [Sql (Execute SelectTitleDescription)]).
Proof.
  intros H. unfold execute_select, bind. rewrite run_emit.
  rewrite db_log, H. reflexivity.
Qed.

Lemma select_no_table (w : world) :
  db w = NoTable ->
  execute_select w = (Raise no_such_table, log w [Sql (Execute SelectTitleDescription)]).
Proof.
  intros H. unfold execute_select, bind. rewrite run_emit.
  rewrite db_log, H. reflexivity.
Qed.

(** ** The room context *)

Lemma concat_cons (sep x : string) (xs : list string) :
  String.concat sep (x :: xs) =
  match xs with
  | [] => x
  | _ => x ++ sep ++ String.concat sep xs
  end.
Proof. destruct xs; reflexivity. Qed.

Lemma room_block_head (r : row) :
  exists rest, room_block r = String "R" rest.
Proof. unfold room_block. cbn [append]. eexists. reflexivity. Qed.

(** The context built from at least one row starts with ["Room: "]: it is
    not the empty string, and the test [if details] of the webhook passes. *)
Lemma combined_description_not_empty (r : row) (rs : list row) :
  (combined_description (r :: rs) =? "")%string = false.
Proof.
  unfold combined_description. cbn [map]. rewrite concat_cons.
  destruct (room_block_head r) as [rest ->].
  destruct (map room_block rs); reflexivity.
Qed.

(** ** app.py *)

Section AppFacts.

Variable groq_create : chat_request -> outcome string.
Variable GROQ_API_KEY : option string.

Abbreviation init_app := (App.init_app GROQ_API_KEY).
Abbreviation classify_query := (App.classify_query groq_create).
Abbreviation classify_result := (App.classify_result groq_create).
Abbreviation generate_response := (App.generate_response groq_create).
Abbreviation generate_result := (App.generate_result groq_create).
Abbreviation main := (App.main groq_create GROQ_API_KEY).

Lemma init_app_key (w : world) :
  truthy_str GROQ_API_KEY = true -> init_app w = (Return tt, w).
Proof. intros H. unfold App.init_app. now rewrite H. Qed.

Lemma init_app_no_key (w : world) :
  truthy_str GROQ_API_KEY = false -> exists e, init_app w = (Raise e, w).
Proof. intros H. unfold App.init_app. rewrite H. now eexists. Qed.

(** On a store that opens, [init_database] leaves the table [room_data] in
    place, created empty when there was none. *)
Lemma init_database_available (w : world) :
  available (db w) = true ->
  App.init_database w =
    (Return tt, mkWorld (Table (records (db w))) (trace w ++ map Sql init_ops)).
Proof.
  intros H. unfold App.init_database.
  rewrite (connect_available w H).
  erewrite run_try_finally.
  - reflexivity.
  - unfold try_except_sqlite. apply run_try_except.
    erewrite run_bind; [| apply create_available; exact H].
    erewrite run_bind; [| apply count_table; reflexivity].
    apply run_emit.
  - unfold conn_close. rewrite run_emit. unfold log; cbn [db trace].
    rewrite <- !app_assoc. reflexivity.
Qed.

Lemma init_database_unavailable (w : world) (err : string) :
  db w = Unavailable err ->
  App.init_database w =
    (Raise (UnboundLocalError App.unbound_conn), log w [Sql Connect]).
Proof.
  intros H. unfold App.init_database.
  now rewrite (connect_unavailable w err H).
Qed.

(** The function on a table: the rows joined, or the fixed text when there
    is none. *)
Lemma app_fetch_table (w : world) (rows : list row) :
  db w = Table rows ->
  App.fetch_room_details w =
    (Return (room_context rows), log w (CallFetchRooms :: map Sql fetch_ops)).
Proof.
  intros H. unfold App.fetch_room_details.
  erewrite run_bind; [| apply run_emit].
  assert (Hav : available (db (log w [CallFetchRooms])) = true)
    by (rewrite db_log, H; reflexivity).
  erewrite run_bind.
  2:{ unfold App.connect_to_db, try_except_sqlite. apply run_try_except.
      erewrite run_bind; [| apply connect_available; exact Hav]. reflexivity. }
  cbv beta iota. erewrite run_try_finally.
  - reflexivity.
  - unfold try_except_sqlite. apply run_try_except.
    erewrite run_bind; [| apply select_table; exact H].
    destruct rows; reflexivity.
  - unfold conn_close. rewrite run_emit, !log_log. reflexivity.
Qed.

Lemma app_classify_some (query t : string) (w : world) :
  classify_result query = Some t ->
  classify_query query w =
    (Return (Some t),
     log w [CallClassify (PStr query); Groq (App.classify_request query)]).
Proof.
  unfold App.classify_result, App.classify_query. intros H.
  destruct (groq_create (App.classify_request query)) as [c|e] eqn:E;
    [| discriminate].
  injection H as <-.
  erewrite run_bind; [| apply run_emit].
  erewrite run_try_except; [reflexivity|].
  erewrite run_bind; [| apply run_emit].
  unfold bind, lift. rewrite log_log. reflexivity.
Qed.

Lemma app_generate (query context : string) (w : world) :
  generate_response query context w =
    (Return (generate_result query context),
     log w [CallGenerate (PStr query) context;
            Groq (App.generate_request query context)]).
Proof.
  unfold App.generate_response, App.generate_result.
  erewrite run_bind; [| apply run_emit].
  unfold try_except. erewrite run_bind; [| apply run_emit].
  unfold lift. rewrite log_log.
  destruct (groq_create (App.generate_request query context)); reflexivity.
Qed.

(** The run up to the classifier's answer, shared by the lemmas below. *)
Ltac ui_start Hkey Hav Hq Hc :=
  unfold App.main; apply run_try_except;
  erewrite run_bind; [| apply init_app_key; exact Hkey];
  erewrite run_bind; [| apply init_database_available; exact Hav];
  do 3 (erewrite run_bind; [| apply run_emit]);
  cbv iota; rewrite Hq;
  erewrite run_bind; [| apply app_classify_some; exact Hc].

Ltac same_world :=
  unfold log, ui_start; cbn [db trace]; f_equal;
  rewrite <- ?app_assoc; reflexivity.

Lemma main_category_1 (query : string) (w : world) :
  truthy_str GROQ_API_KEY = true -> available (db w) = true ->
  (query =? "")%string = false -> classify_result query = Some "1" ->
  main query true w =
    (Return tt,
     mkWorld (Table (records (db w)))
       (trace w ++ ui_start query
        ++ CallFetchRooms :: map Sql fetch_ops
        ++ [CallGenerate (PStr query) (room_context (records (db w)));
            Groq (App.generate_request query (room_context (records (db w))));
            St (StSuccess "Response:");
            St (StWrite (generate_result query (room_context (records (db w)))))])).
Proof.
  intros Hkey Hav Hq Hc. ui_start Hkey Hav Hq Hc.
  change (negb (truthy_str (Some "1"))) with false. cbv iota.
  change ("1" =? "1")%string with true. cbv iota.
  erewrite run_bind; [| apply app_fetch_table; reflexivity].
  erewrite run_bind; [| apply app_generate].
  unfold App.display. erewrite run_bind; [| apply run_emit].
  rewrite run_emit. same_world.
Qed.

Lemma main_category_2 (query : string) (w : world) :
  truthy_str GROQ_API_KEY = true -> available (db w) = true ->
  (query =? "")%string = false -> classify_result query = Some "2" ->
  main query true w =
    (Return tt,
     mkWorld (Table (records (db w)))
       (trace w ++ ui_start query
        ++ [CallGenerate (PStr query) App.HOTEL_INFO;
            Groq (App.generate_request query App.HOTEL_INFO);
            St (StSuccess "Response:");
            St (StWrite (generate_result query App.HOTEL_INFO))])).
Proof.
  intros Hkey Hav Hq Hc. ui_start Hkey Hav Hq Hc.
  change (negb (truthy_str (Some "2"))) with false. cbv iota.
  change ("2" =? "1")%string with false. cbv iota.
  change ("2" =? "2")%string with true. cbv iota.
  erewrite run_bind; [| apply app_generate].
  unfold App.display. erewrite run_bind; [| apply run_emit].
  rewrite run_emit. same_world.
Qed.

(** Any other answer: one of the two error messages, and nothing else. *)
Lemma main_unclassified (query t : string) (w : world) :
  truthy_str GROQ_API_KEY = true -> available (db w) = true ->
  (query =? "")%string = false -> classify_result query = Some t ->
  t <> "1" -> t <> "2" ->
  main query true w =
    (Return tt,
     mkWorld (Table (records (db w)))
       (trace w ++ ui_start query
        ++ [St (StError (if (t =? "")%string
                         then "Failed to classify your query. Please try again."
                         else "Invalid query classification. Please try again."))])).
Proof.
  intros Hkey Hav Hq Hc H1 H2. ui_start Hkey Hav Hq Hc.
  apply String.eqb_neq in H1, H2.
  cbn [truthy_str]. rewrite H1, H2.
  destruct (t =? "")%string; cbn [negb]; cbv iota;
    rewrite run_emit; same_world.
Qed.

End AppFacts.

(** ** twilioo.py *)

Section TwiliooFacts.

Variable groq_create : chat_request -> outcome string.
Variable repr : pyval -> string.

Abbreviation classify_query := (Twilioo.classify_query groq_create repr).
Abbreviation classify_result := (Twilioo.classify_result groq_create repr).
Abbreviation generate_response := (Twilioo.generate_response groq_create repr).
Abbreviation generate_result := (Twilioo.generate_result groq_create repr).
Abbreviation handle_query := (Twilioo.handle_query groq_create repr).
Abbreviation twilio_webhook := (Twilioo.twilio_webhook groq_create repr).
Abbreviation classify_events q :=
  [CallClassify q; Groq (Twilioo.classify_request (py_str repr q))].
Abbreviation generate_events q c :=
  [CallGenerate q c; Groq (Twilioo.generate_request (py_str repr q) c)].

Lemma api_fetch_table (w : world) (rows : list row) :
  db w = Table rows ->
  Twilioo.fetch_room_details w =
    (Return (room_context rows), log w (CallFetchRooms :: map Sql fetch_ops)).
Proof.
  intros H. unfold Twilioo.fetch_room_details.
  erewrite run_bind; [| apply run_emit].
  erewrite run_bind;
    [| apply connect_available; rewrite db_log, H; reflexivity].
  erewrite run_bind; [| apply select_table; exact H].
  unfold conn_close. erewrite run_bind; [| apply run_emit].
  rewrite !log_log. destruct rows; reflexivity.
Qed.

Lemma api_classify (query : pyval) (t : string) (w : world) :
  classify_result query = Return t ->
  classify_query query w = (Return t, log w (classify_events query)).
Proof.
  unfold Twilioo.classify_result, Twilioo.classify_query. intros H.
  destruct (groq_create (Twilioo.classify_request (py_str repr query)))
    as [c|e]; [| discriminate].
  injection H as <-.
  do 2 (erewrite run_bind; [| apply run_emit]).
  unfold bind, lift. rewrite log_log. reflexivity.
Qed.

(** The generator's call is recorded whether the model answers or raises. *)
Lemma api_generate (query : pyval) (context : string) (w : world) :
  generate_response query context w =
    (generate_result query context, log w (generate_events query context)).
Proof.
  unfold Twilioo.generate_response, Twilioo.generate_result.
  do 2 (erewrite run_bind; [| apply run_emit]).
  unfold lift. now rewrite log_log.
Qed.

(** [POST /query] with a query the classifier puts in category 1, on a
    table. *)
Lemma handle_query_category_1 (d : list (string * pyval)) (w : world)
    (rows : list row) :
  truthy (get_default d "query" (PStr "")) = true ->
  classify_result (get_default d "query" (PStr "")) = Return "1" ->
  db w = Table rows ->
  serve (handle_query (PDict d)) w =
    (json_reply (generate_result (get_default d "query" (PStr "")) (room_context rows)),
     log w (classify_events (get_default d "query" (PStr ""))
            ++ CallFetchRooms :: map Sql fetch_ops
            ++ generate_events (get_default d "query" (PStr "")) (room_context rows))).
Proof.
  intros Hq Hc Hdb. unfold Twilioo.handle_query. cbv zeta.
  rewrite Hq. cbn [negb].
  erewrite serve_bind; [| apply api_classify; exact Hc].
  change ("1" =? "1")%string with true. cbv iota.
  erewrite serve_bind; [| apply api_fetch_table; exact Hdb].
  erewrite serve_map; [| apply api_generate].
  rewrite !log_log. reflexivity.
Qed.

Lemma handle_query_category_2 (d : list (string * pyval)) (w : world) :
  truthy (get_default d "query" (PStr "")) = true ->
  classify_result (get_default d "query" (PStr "")) = Return "2" ->
  serve (handle_query (PDict d)) w =
    (json_reply (generate_result (get_default d "query" (PStr "")) Twilioo.HOTEL_INFO),
     log w (classify_events (get_default d "query" (PStr ""))
            ++ generate_events (get_default d "query" (PStr "")) Twilioo.HOTEL_INFO)).
Proof.
  intros Hq Hc. unfold Twilioo.handle_query. cbv zeta.
  rewrite Hq. cbn [negb].
  erewrite serve_bind; [| apply api_classify; exact Hc].
  change ("2" =? "1")%string with false. cbv iota.
  change ("2" =? "2")%string with true. cbv iota.
  erewrite serve_map; [| apply api_generate].
  rewrite !log_log. reflexivity.
Qed.

Lemma handle_query_unclassified (d : list (string * pyval)) (t : string)
    (w : world) :
  truthy (get_default d "query" (PStr "")) = true ->
  classify_result (get_default d "query" (PStr "")) = Return t ->
  t <> "1" -> t <> "2" ->
  serve (handle_query (PDict d)) w =
    (jsonify [("error", PStr "Invalid query classification")] 500,
     log w (classify_events (get_default d "query" (PStr "")))).
Proof.
  intros Hq Hc H1 H2. unfold Twilioo.handle_query. cbv zeta.
  rewrite Hq. cbn [negb].
  erewrite serve_bind; [| apply api_classify; exact Hc].
  apply String.eqb_neq in H1, H2. rewrite H1, H2.
  apply serve_ret.
Qed.

(** A form with a sender and a message, both non-empty, passes the check
    of the webhook. *)
Lemma webhook_fields (form : list (string * string)) (from msg : string) :
  Twilioo.form_get "From" form = Some from -> from <> "" ->
  Twilioo.form_get "Body" form = Some msg -> msg <> "" ->
  negb (truthy_str (Twilioo.form_get "From" form))
  || negb (truthy_str (Twilioo.form_get "Body" form)) = false.
Proof.
  intros -> Hf -> Hm. apply String.eqb_neq in Hf, Hm.
  cbn [truthy_str]. now rewrite Hf, Hm.
Qed.

Lemma webhook_category_1 (form : list (string * string)) (from msg : string)
    (w : world) (rows : list row) :
  Twilioo.form_get "From" form = Some from -> from <> "" ->
  Twilioo.form_get "Body" form = Some msg -> msg <> "" ->
  classify_result (PStr msg) = Return "1" ->
  db w = Table rows ->
  serve (twilio_webhook form) w =
    (twiml_reply (generate_result (PStr msg) (room_context rows)),
     log w (classify_events (PStr msg)
            ++ CallFetchRooms :: map Sql fetch_ops
            ++ generate_events (PStr msg) (room_context rows))).
Proof.
  intros Hf Hfe Hb Hbe Hc Hdb. unfold Twilioo.twilio_webhook. cbv zeta.
  rewrite (webhook_fields form from msg Hf Hfe Hb Hbe), Hb.
  erewrite serve_bind; [| apply api_classify; exact Hc].
  change ("1" =? "1")%string with true. cbv iota.
  assert (Hne : (room_context rows =? "")%string = false).
  { destruct rows; [reflexivity | apply combined_description_not_empty]. }
  erewrite serve_map.
  2:{ erewrite run_bind; [| apply api_fetch_table; exact Hdb].
      rewrite Hne. cbn [negb]. apply api_generate. }
  rewrite !log_log. reflexivity.
Qed.

Lemma webhook_category_2 (form : list (string * string)) (from msg : string)
    (w : world) :
  Twilioo.form_get "From" form = Some from -> from <> "" ->
  Twilioo.form_get "Body" form = Some msg -> msg <> "" ->
  classify_result (PStr msg) = Return "2" ->
  serve (twilio_webhook form) w =
    (twiml_reply (generate_result (PStr msg) Twilioo.HOTEL_INFO),
     log w (classify_events (PStr msg)
            ++ generate_events (PStr msg) Twilioo.HOTEL_INFO)).
Proof.
  intros Hf Hfe Hb Hbe Hc. unfold Twilioo.twilio_webhook. cbv zeta.
  rewrite (webhook_fields form from msg Hf Hfe Hb Hbe), Hb.
  erewrite serve_bind; [| apply api_classify; exact Hc].
  change ("2" =? "1")%string with false. cbv iota.
  change ("2" =? "2")%string with true. cbv iota.
  erewrite serve_map; [| apply api_generate].
  rewrite !log_log. reflexivity.
Qed.

Lemma webhook_unclassified (form : list (string * string)) (from msg t : string)
    (w : world) :
  Twilioo.form_get "From" form = Some from -> from <> "" ->
  Twilioo.form_get "Body" form = Some msg -> msg <> "" ->
  classify_result (PStr msg) = Return t -> t <> "1" -> t <> "2" ->
  serve (twilio_webhook form) w =
    (mkResponse (TwiML "Unable to classify your query.") 200 "application/xml",
     log w (classify_events (PStr msg))).
Proof.
  intros Hf Hfe Hb Hbe Hc H1 H2. unfold Twilioo.twilio_webhook. cbv zeta.
  rewrite (webhook_fields form from msg Hf Hfe Hb Hbe), Hb.
  erewrite serve_bind; [| apply api_classify; exact Hc].
  apply String.eqb_neq in H1, H2. rewrite H1, H2.
  erewrite serve_map; [| reflexivity]. reflexivity.
Qed.

(** A form that lacks the sender or the message, or has one empty, is
    answered at once. *)
Lemma webhook_rejected (form : list (string * string)) (w : world) :
  truthy_str (Twilioo.form_get "From" form) = false \/
  truthy_str (Twilioo.form_get "Body" form) = false ->
  serve (twilio_webhook form) w =
    (mkResponse (Raw Twilioo.WEBHOOK_ERROR) 400 "application/xml", w).
Proof.
  intros H. unfold Twilioo.twilio_webhook. cbv zeta.
  assert (E : negb (truthy_str (Twilioo.form_get "From" form))
              || negb (truthy_str (Twilioo.form_get "Body" form)) = true).
  { destruct H as [-> | ->]; [reflexivity | apply orb_true_r]. }
  rewrite E. reflexivity.
Qed.

End TwiliooFacts.

(** ** postmark.py *)

Section PostmarkFacts.

Variable requests_post : http_post -> outcome http_reply.
Variable POSTMARK_API_KEY SENDER_EMAIL : option string.

Abbreviation postmark_request :=
  (Postmark.postmark_request POSTMARK_API_KEY SENDER_EMAIL).
Abbreviation send_email :=
  (Postmark.send_email requests_post POSTMARK_API_KEY SENDER_EMAIL).
Abbreviation handle_send_email :=
  (Postmark.handle_send_email requests_post POSTMARK_API_KEY SENDER_EMAIL).

Lemma send_email_run (to subject body : pyval) (w : world) :
  send_email to subject body w =
    (match requests_post (postmark_request to subject body) with
     | Return reply => Return (email_result reply)
     | Raise e => Raise e
     end,
     log w [CallSendEmail to subject body;
            HttpPost (postmark_request to subject body)]).
Proof.
  unfold Postmark.send_email.
  do 2 (erewrite run_bind; [| apply run_emit]).
  unfold bind, lift, email_result. rewrite log_log.
  destruct (requests_post (postmark_request to subject body)) as [reply|e];
    [| reflexivity].
  destruct (status_code reply =? 200)%Z; reflexivity.
Qed.

Lemma send_email_rejected (d : list (string * pyval)) (w : world) :
  truthy (get d "email") = false ->
  serve (handle_send_email (PDict d)) w =
    (jsonify [("error", PStr "Email is required")] 400, w).
Proof.
  intros H. unfold Postmark.handle_send_email. cbv zeta.
  rewrite H. reflexivity.
Qed.

Lemma send_email_accepted (d : list (string * pyval)) (w : world) :
  truthy (get d "email") = true ->
  serve (handle_send_email (PDict d)) w =
    (match requests_post
             (postmark_request (get d "email")
                (get_default d "subject" (PStr Postmark.DEFAULT_SUBJECT))
                (get_default d "body" (PStr Postmark.DEFAULT_BODY))) with
     | Return reply => jsonify (email_result reply) 200
     | Raise _ => error_page
     end,
     log w [CallSendEmail (get d "email")
              (get_default d "subject" (PStr Postmark.DEFAULT_SUBJECT))
              (get_default d "body" (PStr Postmark.DEFAULT_BODY));
            HttpPost
              (postmark_request (get d "email")
                 (get_default d "subject" (PStr Postmark.DEFAULT_SUBJECT))
                 (get_default d "body" (PStr Postmark.DEFAULT_BODY)))]).
Proof.
  intros H. unfold Postmark.handle_send_email. cbv zeta.
  rewrite H. cbn [negb].
  erewrite serve_map; [| apply send_email_run].
  destruct (requests_post _); reflexivity.
Qed.

End PostmarkFacts.

(** ** The store across a computation *)

Section Frame.

Variable R : database -> database -> Prop.
Hypothesis R_refl : forall d, R d d.
Hypothesis R_trans : forall d1 d2 d3, R d1 d2 -> R d2 d3 -> R d1 d3.

Lemma preserves_ret {A} (a : A) : preserves R (ret a).
Proof. intros w. apply R_refl. Qed.

Lemma preserves_raise {A} (e : exn) : preserves R (@raise A e).
Proof. intros w. apply R_refl. Qed.

Lemma preserves_lift {A} (r : outcome A) : preserves R (lift r).
Proof. intros w. apply R_refl. Qed.

Lemma preserves_emit (e : event) : preserves R (emit e).
Proof. intros w. apply R_refl. Qed.

Lemma preserves_bind {A B} (m : M A) (k : A -> M B) :
  preserves R m -> (forall a, preserves R (k a)) -> preserves R (bind m k).
Proof.
  intros Hm Hk w. unfold bind. specialize (Hm w).
  destruct (m w) as [[a|e] w1]; cbn [snd] in *; [| exact Hm].
  eapply R_trans; [exact Hm | apply Hk].
Qed.

Lemma preserves_try_except {A} (body : M A) (h : exn -> M A) :
  preserves R body -> (forall e, preserves R (h e)) ->
  preserves R (try_except body h).
Proof.
  intros Hb Hh w. unfold try_except. specialize (Hb w).
  destruct (body w) as [[a|e] w1]; cbn [snd] in *; [exact Hb |].
  eapply R_trans; [exact Hb | apply Hh].
Qed.

Lemma preserves_try_except_sqlite {A} (body : M A) (h : exn -> M A) :
  preserves R body -> (forall e, preserves R (h e)) ->
  preserves R (try_except_sqlite body h).
Proof.
  intros Hb Hh. apply preserves_try_except; [exact Hb |].
  intros e. destruct (is_sqlite_error e); [apply Hh | apply preserves_raise].
Qed.

Lemma preserves_try_finally {A} (body : M A) (final : M unit) :
  preserves R body -> preserves R final -> preserves R (try_finally body final).
Proof.
  intros Hb Hf w. unfold try_finally. specialize (Hb w).
  destruct (body w) as [r w1]; cbn [snd] in *. specialize (Hf w1).
  destruct (final w1) as [[u|e] w2]; cbn [snd] in *;
    eapply R_trans; eassumption.
Qed.

Lemma preserves_connect : preserves R sqlite3_connect.
Proof. intros w. cbn. destruct (db w); apply R_refl. Qed.

Lemma preserves_count : preserves R execute_count.
Proof. intros w. cbn. destruct (db w); apply R_refl. Qed.

Lemma preserves_select : preserves R execute_select.
Proof. intros w. cbn. destruct (db w); apply R_refl. Qed.

Lemma preserves_serve (view : M response) (w : world) :
  preserves R view -> R (db w) (db (snd (serve view w))).
Proof.
  intros H. unfold serve. specialize (H w).
  destruct (view w) as [[r|e] w1]; exact H.
Qed.

(** One step through a computation built from the pieces above. *)
Ltac frame_step :=
  first
    [ assumption
    | apply preserves_ret | apply preserves_raise | apply preserves_lift
    | apply preserves_emit | apply preserves_connect | apply preserves_count
    | apply preserves_select
    | apply preserves_bind; [| intro]
    | apply preserves_try_except_sqlite; [| intro]
    | apply preserves_try_except; [| intro]
    | apply preserves_try_finally
    | match goal with
      | |- preserves _ (if ?b then _ else _) => destruct b
      | |- preserves _ (match ?x with _ => _ end) => destruct x
      end ].

Ltac frame := cbv zeta; repeat frame_step.

(** *** twilioo.py and postmark.py: reads and calls only *)

Lemma api_fetch_preserves : preserves R Twilioo.fetch_room_details.
Proof. unfold Twilioo.fetch_room_details, conn_close. frame. Qed.

Lemma api_classify_preserves groq repr (q : pyval) :
  preserves R (Twilioo.classify_query groq repr q).
Proof. unfold Twilioo.classify_query. frame. Qed.

Lemma api_generate_preserves groq repr (q : pyval) (c : string) :
  preserves R (Twilioo.generate_response groq repr q c).
Proof. unfold Twilioo.generate_response. frame. Qed.

Lemma handle_query_preserves groq repr (data : pyval) :
  preserves R (Twilioo.handle_query groq repr data).
Proof.
  pose proof api_fetch_preserves.
  pose proof (api_classify_preserves groq repr).
  pose proof (api_generate_preserves groq repr).
  unfold Twilioo.handle_query. destruct data; frame.
Qed.

Lemma twilio_webhook_preserves groq repr (form : list (string * string)) :
  preserves R (Twilioo.twilio_webhook groq repr form).
Proof.
  pose proof api_fetch_preserves.
  pose proof (api_classify_preserves groq repr).
  pose proof (api_generate_preserves groq repr).
  unfold Twilioo.twilio_webhook. frame.
Qed.

Lemma handle_send_email_preserves post key sender (data : pyval) :
  preserves R (Postmark.handle_send_email post key sender data).
Proof.
  unfold Postmark.handle_send_email, Postmark.send_email.
  destruct data; frame.
Qed.

(** *** app.py: the table may be created *)

Hypothesis R_create : preserves R execute_create.

Lemma init_database_preserves : preserves R App.init_database.
Proof.
  intros w. unfold App.init_database.
  pose proof (preserves_connect w) as Hc.
  destruct (sqlite3_connect w) as [[u|e] w1]; cbn [snd] in *; [| exact Hc].
  eapply R_trans; [exact Hc |].
  clear Hc. revert w1.
  change (preserves R
    (try_finally
       (try_except_sqlite
          (execute_create ;; count <- execute_count ;; conn_commit)
          (fun e => raise e))
       conn_close)).
  unfold conn_commit, conn_close. frame.
Qed.

Lemma app_fetch_preserves : preserves R App.fetch_room_details.
Proof.
  unfold App.fetch_room_details, App.connect_to_db, conn_close. frame.
Qed.

Lemma app_classify_preserves groq (q : string) :
  preserves R (App.classify_query groq q).
Proof. unfold App.classify_query. frame. Qed.

Lemma app_generate_preserves groq (q c : string) :
  preserves R (App.generate_response groq q c).
Proof. unfold App.generate_response. frame. Qed.

Lemma main_preserves groq key (query : string) (clicked : bool) :
  preserves R (App.main groq key query clicked).
Proof.
  pose proof init_database_preserves.
  pose proof app_fetch_preserves.
  pose proof (app_classify_preserves groq).
  pose proof (app_generate_preserves groq).
  unfold App.main, App.init_app, App.display. frame.
Qed.

End Frame.

Lemma grown_refl (d : database) : grown d d.
Proof. now left. Qed.

Lemma grown_trans (d1 d2 d3 : database) :
  grown d1 d2 -> grown d2 d3 -> grown d1 d3.
Proof.
  intros [-> | [-> ->]] [-> | [E ->]]; unfold grown; auto; discriminate.
Qed.

(** [CREATE TABLE IF NOT EXISTS] adds the table or does nothing. *)
Lemma create_grows : preserves grown execute_create.
Proof.
  intros [d tr]. cbn. destruct d; cbn; [now left | now right | now left].
Qed.

(** A grown store holds the room records it held. *)
Lemma grown_records (d d' : database) : grown d d' -> records d' = records d.
Proof. now intros [-> | [-> ->]]. Qed.

Lemma grown_table (d d' : database) (rows : list row) :
  grown d d' -> d = Table rows -> d' = d.
Proof. intros [-> | [-> ->]] E; [reflexivity | discriminate]. Qed.

(** * The properties of the request flows *)

(** In the statements a request starts from [fresh d]: the store [d] and
    no event yet, so that [trace] is what the request did. *)

Section Contexts.

Variable groq : chat_request -> outcome string.
Variable key : option string.
Variable repr : pyval -> string.

(** What a request does on each surface: a click on the page with a
    query, a body of POST /query, a form of the webhook. *)
Abbreviation ui_trace query d :=
  (trace (snd (App.main groq key query true (fresh d)))).
Abbreviation query_trace body d :=
  (trace (snd (serve (Twilioo.handle_query groq repr (PDict body)) (fresh d)))).
Abbreviation webhook_trace form d :=
  (trace (snd (serve (Twilioo.twilio_webhook groq repr form) (fresh d)))).

(** The query of a body of POST /query. *)
Lemma query_of_body (body : list (string * pyval)) (query : pyval) :
  dict_get "query" body = Some query ->
  get_default body "query" (PStr "") = query.
Proof. intros H. unfold get_default. now rewrite H. Qed.

(** C1.  A query of category "1" on a table with at least one row: the
    generator is called once, and its context is the rows of the table in
    their order, each as "Room: <title>\nDescription: <description>",
    joined by "\n\n".  This holds on the page, on POST /query and on the
    webhook. *)
Theorem room_rows_are_the_context (rows : list row) :
  rows <> [] ->
  (forall query,
     truthy_str key = true -> query <> "" ->
     App.classify_result groq query = Some "1" ->
     generator_calls (ui_trace query (Table rows)) =
       [(PStr query,
         String.concat (nl ++ nl)
           (map (fun r => "Room: " ++ cell_str (fst r) ++ nl
                          ++ "Description: " ++ cell_str (snd r)) rows))])
  /\ (forall body query,
        dict_get "query" body = Some query -> truthy query = true ->
        Twilioo.classify_result groq repr query = Return "1" ->
        generator_calls (query_trace body (Table rows)) =
          [(query,
            String.concat (nl ++ nl)
              (map (fun r => "Room: " ++ cell_str (fst r) ++ nl
                             ++ "Description: " ++ cell_str (snd r)) rows))])
  /\ (forall form from msg,
        Twilioo.form_get "From" form = Some from -> from <> "" ->
        Twilioo.form_get "Body" form = Some msg -> msg <> "" ->
        Twilioo.classify_result groq repr (PStr msg) = Return "1" ->
        generator_calls (webhook_trace form (Table rows)) =
          [(PStr msg,
            String.concat (nl ++ nl)
              (map (fun r => "Room: " ++ cell_str (fst r) ++ nl
                             ++ "Description: " ++ cell_str (snd r)) rows))]).
Proof.
  intros Hrows. destruct rows as [|r rs]; [contradiction |].
  split; [| split].
  - intros query Hkey Hq Hc. apply String.eqb_neq in Hq.
    rewrite main_category_1 by (assumption || reflexivity).
    cbn [snd trace fresh db records]. unfold ui_start.
    rewrite !generator_calls_app. reflexivity.
  - intros body query Hget Hq Hc.
    assert (E : get_default body "query" (PStr "") = query)
      by (unfold get_default; now rewrite Hget).
    pose proof (handle_query_category_1 groq repr body
                  (fresh (Table (r :: rs))) (r :: rs)) as Hrun.
    rewrite E in Hrun. rewrite (Hrun Hq Hc eq_refl).
    cbn [snd]. rewrite trace_log_fresh, !generator_calls_app. reflexivity.
  - intros form from msg Hf Hfe Hb Hbe Hc.
    rewrite (webhook_category_1 groq repr form from msg
               (fresh (Table (r :: rs))) (r :: rs) Hf Hfe Hb Hbe Hc eq_refl).
    cbn [snd]. rewrite trace_log_fresh, !generator_calls_app. reflexivity.
Qed.

(** C2.  A query of category "2": the generator is called once, with the
    constant [HOTEL_INFO] of the module that serves the request as its
    context, whatever the store holds. *)
Theorem hotel_info_is_the_context :
  (forall query d,
     truthy_str key = true -> available d = true -> query <> "" ->
     App.classify_result groq query = Some "2" ->
     generator_calls (ui_trace query d) = [(PStr query, App.HOTEL_INFO)])
  /\ (forall body query d,
        dict_get "query" body = Some query -> truthy query = true ->
        Twilioo.classify_result groq repr query = Return "2" ->
        generator_calls (query_trace body d) = [(query, Twilioo.HOTEL_INFO)])
  /\ (forall form from msg d,
        Twilioo.form_get "From" form = Some from -> from <> "" ->
        Twilioo.form_get "Body" form = Some msg -> msg <> "" ->
        Twilioo.classify_result groq repr (PStr msg) = Return "2" ->
        generator_calls (webhook_trace form d) = [(PStr msg, Twilioo.HOTEL_INFO)]).
Proof.
  split; [| split].
  - intros query d Hkey Hav Hq Hc. apply String.eqb_neq in Hq.
    rewrite main_category_2 by assumption.
    cbn [snd trace fresh]. unfold ui_start.
    rewrite !generator_calls_app. reflexivity.
  - intros body query d Hget Hq Hc.
    apply query_of_body in Hget.
    pose proof (handle_query_category_2 groq repr body (fresh d)) as Hrun.
    rewrite Hget in Hrun. rewrite (Hrun Hq Hc).
    cbn [snd]. rewrite trace_log_fresh, generator_calls_app. reflexivity.
  - intros form from msg d Hf Hfe Hb Hbe Hc.
    rewrite (webhook_category_2 groq repr form from msg (fresh d)
               Hf Hfe Hb Hbe Hc).
    cbn [snd]. rewrite trace_log_fresh, generator_calls_app. reflexivity.
Qed.

(** C3.  A query of category "1" on a table with no row: the context the
    generator is called with is the text "No room details available.". *)
Theorem empty_table_context :
  (forall query,
     truthy_str key = true -> query <> "" ->
     App.classify_result groq query = Some "1" ->
     generator_calls (ui_trace query (Table [])) =
       [(PStr query, "No room details available.")])
  /\ (forall body query,
        dict_get "query" body = Some query -> truthy query = true ->
        Twilioo.classify_result groq repr query = Return "1" ->
        generator_calls (query_trace body (Table [])) =
          [(query, "No room details available.")])
  /\ (forall form from msg,
        Twilioo.form_get "From" form = Some from -> from <> "" ->
        Twilioo.form_get "Body" form = Some msg -> msg <> "" ->
        Twilioo.classify_result groq repr (PStr msg) = Return "1" ->
        generator_calls (webhook_trace form (Table [])) =
          [(PStr msg, "No room details available.")]).
Proof.
  split; [| split].
  - intros query Hkey Hq Hc. apply String.eqb_neq in Hq.
    rewrite main_category_1 by (assumption || reflexivity).
    cbn [snd trace fresh db records]. unfold ui_start.
    rewrite !generator_calls_app. reflexivity.
  - intros body query Hget Hq Hc.
    apply query_of_body in Hget.
    pose proof (handle_query_category_1 groq repr body (fresh (Table [])) [])
      as Hrun.
    rewrite Hget in Hrun. rewrite (Hrun Hq Hc eq_refl).
    cbn [snd]. rewrite trace_log_fresh, !generator_calls_app. reflexivity.
  - intros form from msg Hf Hfe Hb Hbe Hc.
    rewrite (webhook_category_1 groq repr form from msg (fresh (Table [])) []
               Hf Hfe Hb Hbe Hc eq_refl).
    cbn [snd]. rewrite trace_log_fresh, !generator_calls_app. reflexivity.
Qed.

(** C4.  An answer of the classifier that is neither "1" nor "2": no
    surface calls the generator, and each answers with an error.  The page
    shows an error message below its head; POST /query answers with status
    500 and a JSON body that has the field [error]; the webhook answers
    with the fixed text that the query could not be classified, in its
    reply envelope. *)
Theorem unclassified_is_an_error (t : string) :
  t <> "1" -> t <> "2" ->
  (forall query d,
     truthy_str key = true -> available d = true -> query <> "" ->
     App.classify_result groq query = Some t ->
     generator_calls (ui_trace query d) = [] /\
     rendered (ui_trace query d) =
       (page_head ++
        [StError (if (t =? "")%string
                  then "Failed to classify your query. Please try again."
                  else "Invalid query classification. Please try again.")])%list)
  /\ (forall body query d,
        dict_get "query" body = Some query -> truthy query = true ->
        Twilioo.classify_result groq repr query = Return t ->
        generator_calls (query_trace body d) = [] /\
        fst (serve (Twilioo.handle_query groq repr (PDict body)) (fresh d)) =
          mkResponse (Json (PDict [("error", PStr "Invalid query classification")]))
            500 "application/json")
  /\ (forall form from msg d,
        Twilioo.form_get "From" form = Some from -> from <> "" ->
        Twilioo.form_get "Body" form = Some msg -> msg <> "" ->
        Twilioo.classify_result groq repr (PStr msg) = Return t ->
        generator_calls (webhook_trace form d) = [] /\
        body (fst (serve (Twilioo.twilio_webhook groq repr form) (fresh d))) =
          TwiML "Unable to classify your query.").
Proof.
  intros H1 H2. split; [| split].
  - intros query d Hkey Hav Hq Hc. apply String.eqb_neq in Hq.
    rewrite (main_unclassified groq key query t (fresh d) Hkey Hav Hq Hc H1 H2).
    cbn [snd trace fresh]. unfold ui_start.
    split; [rewrite !generator_calls_app |]; reflexivity.
  - intros body query d Hget Hq Hc.
    apply query_of_body in Hget.
    pose proof (handle_query_unclassified groq repr body t (fresh d)) as Hrun.
    rewrite Hget in Hrun. rewrite (Hrun Hq Hc H1 H2).
    split; reflexivity.
  - intros form from msg d Hf Hfe Hb Hbe Hc.
    rewrite (webhook_unclassified groq repr form from msg t (fresh d)
               Hf Hfe Hb Hbe Hc H1 H2).
    split; reflexivity.
Qed.

(** C5, as the code has it.  A query of category "2": no surface fetches
    the room rows ([fetch_room_details] is not called and no
    [SELECT title, description] is executed), and the generator is called
    with [HOTEL_INFO] alone, whatever table the store holds.  POST /query
    and the webhook do not touch the store at all; the page touches it
    only in [init_database], which every run starts with. *)
Theorem category_2_fetches_no_rows :
  (forall query d,
     truthy_str key = true -> available d = true -> query <> "" ->
     App.classify_result groq query = Some "2" ->
     fetch_calls (ui_trace query d) = 0%nat /\
     store_ops (ui_trace query d) = init_ops /\
     generator_calls (ui_trace query d) = [(PStr query, App.HOTEL_INFO)])
  /\ (forall body query d,
        dict_get "query" body = Some query -> truthy query = true ->
        Twilioo.classify_result groq repr query = Return "2" ->
        fetch_calls (query_trace body d) = 0%nat /\
        store_ops (query_trace body d) = [] /\
        generator_calls (query_trace body d) = [(query, Twilioo.HOTEL_INFO)])
  /\ (forall form from msg d,
        Twilioo.form_get "From" form = Some from -> from <> "" ->
        Twilioo.form_get "Body" form = Some msg -> msg <> "" ->
        Twilioo.classify_result groq repr (PStr msg) = Return "2" ->
        fetch_calls (webhook_trace form d) = 0%nat /\
        store_ops (webhook_trace form d) = [] /\
        generator_calls (webhook_trace form d) = [(PStr msg, Twilioo.HOTEL_INFO)]).
Proof.
  split; [| split].
  - intros query d Hkey Hav Hq Hc. apply String.eqb_neq in Hq.
    rewrite main_category_2 by assumption.
    cbn [snd trace fresh]. unfold ui_start. repeat split.
  - intros body query d Hget Hq Hc.
    apply query_of_body in Hget.
    pose proof (handle_query_category_2 groq repr body (fresh d)) as Hrun.
    rewrite Hget in Hrun. rewrite (Hrun Hq Hc).
    cbn [snd]. rewrite trace_log_fresh. repeat split.
  - intros form from msg d Hf Hfe Hb Hbe Hc.
    rewrite (webhook_category_2 groq repr form from msg (fresh d)
               Hf Hfe Hb Hbe Hc).
    cbn [snd]. rewrite trace_log_fresh. repeat split.
Qed.

(** C8.  A form of the webhook in which [From] or [Body] is missing or
    empty: the answer is status 400 with the XML error envelope, and
    neither the classifier nor the generator is called. *)
Theorem webhook_rejects_missing_fields (form : list (string * string))
    (d : database) :
  truthy_str (Twilioo.form_get "From" form) = false \/
  truthy_str (Twilioo.form_get "Body" form) = false ->
  fst (serve (Twilioo.twilio_webhook groq repr form) (fresh d)) =
    mkResponse
      (Raw "<Response><Message>Error: Phone number and message are required.</Message></Response>")
      400 "application/xml"
  /\ classifier_calls (webhook_trace form d) = []
  /\ generator_calls (webhook_trace form d) = []
  /\ webhook_trace form d = [].
Proof.
  intros H. rewrite (webhook_rejected groq repr form (fresh d) H).
  cbn [fst snd]. repeat split; reflexivity.
Qed.

(** C10.  A form of the webhook with both fields present and not empty,
    and an answer of the classifier that is neither "1" nor "2": the
    answer has status 200 and its message is the text
    "Unable to classify your query.". *)
Theorem webhook_unclassified_is_200 (form : list (string * string))
    (from msg t : string) (d : database) :
  Twilioo.form_get "From" form = Some from -> from <> "" ->
  Twilioo.form_get "Body" form = Some msg -> msg <> "" ->
  Twilioo.classify_result groq repr (PStr msg) = Return t ->
  t <> "1" -> t <> "2" ->
  fst (serve (Twilioo.twilio_webhook groq repr form) (fresh d)) =
    mkResponse (TwiML "Unable to classify your query.") 200 "application/xml".
Proof.
  intros Hf Hfe Hb Hbe Hc H1 H2.
  now rewrite (webhook_unclassified groq repr form from msg t (fresh d)
                 Hf Hfe Hb Hbe Hc H1 H2).
Qed.

End Contexts.

(** C6.  A request leaves the room records as they were, on every surface
    and on every way out of it (an answer, an error answer or an
    exception).  A table that exists is left as it is; the page creates
    the table, empty, where there was none.  The context resolver
    [fetch_room_details] does nothing to the store but open it, read and
    close it. *)
Theorem room_records_unchanged
    (groq : chat_request -> outcome string) (key : option string)
    (repr : pyval -> string) (post : http_post -> outcome http_reply)
    (pkey sender : option string) (w : world) :
  (forall query clicked,
     records (db (snd (App.main groq key query clicked w))) = records (db w) /\
     (forall rows, db w = Table rows ->
        db (snd (App.main groq key query clicked w)) = Table rows))
  /\ (forall data,
        db (snd (serve (Twilioo.handle_query groq repr data) w)) = db w)
  /\ (forall form,
        db (snd (serve (Twilioo.twilio_webhook groq repr form) w)) = db w)
  /\ (forall data,
        db (snd (serve (Postmark.handle_send_email post pkey sender data) w)) = db w)
  /\ forallb reads_only (store_ops (trace (snd (App.fetch_room_details (fresh (db w)))))) = true
  /\ forallb reads_only (store_ops (trace (snd (Twilioo.fetch_room_details (fresh (db w)))))) = true.
Proof.
  assert (Htrans : forall d1 d2 d3 : database, d1 = d2 -> d2 = d3 -> d1 = d3)
    by (intros; congruence).
  repeat apply conj.
  - intros query clicked.
    pose proof (main_preserves grown grown_refl grown_trans create_grows
                  groq key query clicked w) as Hg.
    split.
    + now apply grown_records.
    + intros rows Hrows. rewrite <- Hrows. eapply grown_table; eassumption.
  - intros data. symmetry.
    apply (preserves_serve eq).
    now apply handle_query_preserves.
  - intros form. symmetry.
    apply (preserves_serve eq).
    now apply twilio_webhook_preserves.
  - intros data. symmetry.
    apply (preserves_serve eq).
    now apply handle_send_email_preserves.
  - destruct (db w) as [err | | [| r rs]]; reflexivity.
  - destruct (db w) as [err | | [| r rs]]; reflexivity.
Qed.

Section Mail.

Variable post : http_post -> outcome http_reply.
Variable pkey sender : option string.

(** The answer to a body of POST /send_email, and the world after it. *)
Abbreviation mail fields d :=
  (serve (Postmark.handle_send_email post pkey sender (PDict fields)) (fresh d)).

(** C7, as the code has it.  A body of POST /send_email without a
    recipient is an object whose field [email] is missing or empty (or any
    other value Python counts as false), or a JSON value that is no object
    at all.  For an object the answer is status 400 with an error body;
    for every body without a recipient [send_email] is not called, so no
    request goes to the mail API. *)
Theorem send_email_requires_recipient (data : pyval) (d : database) :
  (forall fields, data = PDict fields -> truthy (get fields "email") = false) ->
  (forall fields,
     data = PDict fields ->
     fst (serve (Postmark.handle_send_email post pkey sender data) (fresh d)) =
       mkResponse (Json (PDict [("error", PStr "Email is required")]))
         400 "application/json")
  /\ email_calls
       (trace (snd (serve (Postmark.handle_send_email post pkey sender data)
                      (fresh d)))) = []
  /\ http_posts
       (trace (snd (serve (Postmark.handle_send_email post pkey sender data)
                      (fresh d)))) = [].
Proof.
  intros H.
  destruct data as [| b | z | s | l | fields];
    try (split; [intros fields; discriminate | split; reflexivity]).
  rewrite (send_email_rejected post pkey sender fields (fresh d)
             (H fields eq_refl)).
  split; [intros fields' _; reflexivity | split; reflexivity].
Qed.

(** C9.  A body of POST /send_email with a recipient: [send_email] is
    called once, with the subject and the body of the request, and where
    the field is missing with the default subject and the default body.
    The answer is never the rejection: its status is 200 once the mail
    API has replied, and 500 when the post raised. *)
Theorem send_email_defaults (fields : list (string * pyval)) (d : database) :
  truthy (get fields "email") = true ->
  exists subject body,
    email_calls (trace (snd (mail fields d))) = [(get fields "email", subject, body)]
    /\ (dict_get "subject" fields = None ->
          subject = PStr "Room Availability at Thira Beach Home")
    /\ (dict_get "body" fields = None ->
          body = PStr "Here are the details of the available rooms.")
    /\ (forall v, dict_get "subject" fields = Some v -> subject = v)
    /\ (forall v, dict_get "body" fields = Some v -> body = v)
    /\ status (fst (mail fields d)) =
          match post (Postmark.postmark_request pkey sender
                        (get fields "email") subject body) with
          | Return _ => 200
          | Raise _ => 500
          end
    /\ status (fst (mail fields d)) <> 400.
Proof.
  intros H.
  rewrite (send_email_accepted post pkey sender fields (fresh d) H).
  exists (get_default fields "subject" (PStr Postmark.DEFAULT_SUBJECT)),
         (get_default fields "body" (PStr Postmark.DEFAULT_BODY)).
  cbn [fst snd]. unfold get_default.
  repeat apply conj.
  - reflexivity.
  - now intros ->.
  - now intros ->.
  - now intros v ->.
  - now intros v ->.
  - destruct (post _); reflexivity.
  - destruct (post _); discriminate.
Qed.

End Mail.

(** * Instances *)

(** Each instance runs the flows on the sample oracles and stores above
    and reads the result off the theorem it instantiates. *)

Lemma room_rows_are_the_context_witness :
  generator_calls
    (trace (snd (App.main (sample_groq (" 1" ++ nl)) sample_key sample_query true
                   (fresh (Table sample_rooms))))) =
    [(PStr sample_query, sample_context)]
  /\ generator_calls
       (trace (snd (serve (Twilioo.handle_query (sample_groq "1") sample_repr
                             (PDict sample_body))
                      (fresh (Table sample_rooms))))) =
       [(PStr sample_query, sample_context)]
  /\ generator_calls
       (trace (snd (serve (Twilioo.twilio_webhook (sample_groq "1") sample_repr
                             sample_form)
                      (fresh (Table sample_rooms))))) =
       [(PStr sample_query, sample_context)].
Proof.
  assert (Hrows : sample_rooms <> []) by discriminate.
  split; [| split].
  - apply (proj1 (room_rows_are_the_context (sample_groq (" 1" ++ nl))
                    sample_key sample_repr sample_rooms Hrows));
      [reflexivity | discriminate | reflexivity].
  - apply (proj1 (proj2 (room_rows_are_the_context (sample_groq "1")
                    sample_key sample_repr sample_rooms Hrows)));
      reflexivity.
  - apply (proj2 (proj2 (room_rows_are_the_context (sample_groq "1")
                    sample_key sample_repr sample_rooms Hrows))
             sample_form "whatsapp:+910000000000" sample_query);
      first [reflexivity | discriminate].
Defined.

Lemma hotel_info_is_the_context_witness :
  generator_calls
    (trace (snd (App.main (sample_groq "2") sample_key sample_query true
                   (fresh (Table []))))) =
    [(PStr sample_query, App.HOTEL_INFO)]
  /\ generator_calls
       (trace (snd (serve (Twilioo.handle_query (sample_groq "2") sample_repr
                             (PDict sample_body))
                      (fresh NoTable)))) =
       [(PStr sample_query, Twilioo.HOTEL_INFO)]
  /\ generator_calls
       (trace (snd (serve (Twilioo.twilio_webhook (sample_groq "2") sample_repr
                             sample_form)
                      (fresh (Table sample_rooms))))) =
       [(PStr sample_query, Twilioo.HOTEL_INFO)].
Proof.
  destruct (hotel_info_is_the_context (sample_groq "2") sample_key sample_repr)
    as (Hui & Hq & Hw).
  split; [| split].
  - apply Hui; first [reflexivity | discriminate].
  - apply Hq; reflexivity.
  - apply (Hw sample_form "whatsapp:+910000000000" sample_query);
      first [reflexivity | discriminate].
Defined.

Lemma empty_table_context_witness :
  generator_calls
    (trace (snd (App.main (sample_groq "1") sample_key sample_query true
                   (fresh (Table []))))) =
    [(PStr sample_query, "No room details available.")]
  /\ generator_calls
       (trace (snd (serve (Twilioo.handle_query (sample_groq "1") sample_repr
                             (PDict sample_body))
                      (fresh (Table []))))) =
       [(PStr sample_query, "No room details available.")]
  /\ generator_calls
       (trace (snd (serve (Twilioo.twilio_webhook (sample_groq "1") sample_repr
                             sample_form)
                      (fresh (Table []))))) =
       [(PStr sample_query, "No room details available.")].
Proof.
  destruct (empty_table_context (sample_groq "1") sample_key sample_repr)
    as (Hui & Hq & Hw).
  split; [| split].
  - apply Hui; first [reflexivity | discriminate].
  - apply Hq; reflexivity.
  - apply (Hw sample_form "whatsapp:+910000000000" sample_query);
      first [reflexivity | discriminate].
Defined.

Lemma unclassified_is_an_error_witness :
  rendered
    (trace (snd (App.main (sample_groq "3") sample_key sample_query true
                   (fresh (Table sample_rooms))))) =
    (page_head ++ [StError "Invalid query classification. Please try again."])%list
  /\ fst (serve (Twilioo.handle_query (sample_groq "3") sample_repr
                   (PDict sample_body))
            (fresh (Table sample_rooms))) =
       mkResponse (Json (PDict [("error", PStr "Invalid query classification")]))
         500 "application/json"
  /\ generator_calls
       (trace (snd (serve (Twilioo.twilio_webhook (sample_groq "3") sample_repr
                             sample_form)
                      (fresh (Table sample_rooms))))) = [].
Proof.
  assert (H1 : "3" <> "1") by discriminate.
  assert (H2 : "3" <> "2") by discriminate.
  destruct (unclassified_is_an_error (sample_groq "3") sample_key sample_repr
              "3" H1 H2) as (Hui & Hq & Hw).
  split; [| split].
  - apply (Hui sample_query (Table sample_rooms));
      first [reflexivity | discriminate].
  - apply (Hq sample_body (PStr sample_query) (Table sample_rooms));
      reflexivity.
  - apply (Hw sample_form "whatsapp:+910000000000" sample_query
             (Table sample_rooms));
      first [reflexivity | discriminate].
Defined.

(** C5, as the claim has it, fails on the page: a run that answers the
    query "Is there air conditioning?", classified "2", on an empty table
    opens the store and reads the number of its rows. *)
Lemma category_2_page_reads_the_store :
  App.classify_result (sample_groq "2") sample_query = Some "2"
  /\ store_ops
       (trace (snd (App.main (sample_groq "2") sample_key sample_query true
                      (fresh (Table []))))) =
       [Connect; Execute CreateTableIfNotExists; Execute SelectCount; Commit; Close]
  /\ In (Execute SelectCount)
       (store_ops
          (trace (snd (App.main (sample_groq "2") sample_key sample_query true
                         (fresh (Table [])))))).
Proof.
  split; [reflexivity |]. split; [reflexivity |].
  right. right. left. reflexivity.
Qed.

Lemma category_2_fetches_no_rows_witness :
  store_ops
    (trace (snd (App.main (sample_groq "2") sample_key sample_query true
                   (fresh (Table sample_rooms))))) = init_ops
  /\ store_ops
       (trace (snd (serve (Twilioo.handle_query (sample_groq "2") sample_repr
                             (PDict sample_body))
                      (fresh (Table sample_rooms))))) = []
  /\ store_ops
       (trace (snd (serve (Twilioo.twilio_webhook (sample_groq "2") sample_repr
                             sample_form)
                      (fresh (Table []))))) = [].
Proof.
  destruct (category_2_fetches_no_rows (sample_groq "2") sample_key sample_repr)
    as (Hui & Hq & Hw).
  split; [| split].
  - apply (Hui sample_query (Table sample_rooms));
      first [reflexivity | discriminate].
  - apply (Hq sample_body (PStr sample_query) (Table sample_rooms));
      reflexivity.
  - apply (Hw sample_form "whatsapp:+910000000000" sample_query (Table []));
      first [reflexivity | discriminate].
Defined.

Lemma send_email_requires_recipient_witness :
  fst (serve (Postmark.handle_send_email sample_post None None
                (PDict [("subject", PStr "Rooms")]))
         (fresh NoTable)) =
    mkResponse (Json (PDict [("error", PStr "Email is required")]))
      400 "application/json"
  /\ fst (serve (Postmark.handle_send_email sample_post None None
                   (PDict [("email", PStr "")]))
            (fresh NoTable)) =
       mkResponse (Json (PDict [("error", PStr "Email is required")]))
         400 "application/json"
  /\ http_posts
       (trace (snd (serve (Postmark.handle_send_email sample_post None None
                             (PList []))
                      (fresh NoTable)))) = [].
Proof.
  split; [| split].
  - apply (proj1 (send_email_requires_recipient sample_post None None
                    (PDict [("subject", PStr "Rooms")]) NoTable
                    ltac:(now intros fields [= <-]))
             [("subject", PStr "Rooms")] eq_refl).
  - apply (proj1 (send_email_requires_recipient sample_post None None
                    (PDict [("email", PStr "")]) NoTable
                    ltac:(now intros fields [= <-]))
             [("email", PStr "")] eq_refl).
  - apply (send_email_requires_recipient sample_post None None (PList [])
             NoTable).
    discriminate.
Defined.

(** C7, as the claim has it, fails on a body that is no object: the JSON
    bodies [[]] and [null] hold no recipient, and the answer is status
    500, not 400, since [data.get] raises. *)
Lemma send_email_non_object_is_500 :
  fst (serve (Postmark.handle_send_email sample_post None None (PList []))
         (fresh NoTable)) =
    mkResponse InternalServerError 500 "text/html"
  /\ fst (serve (Postmark.handle_send_email sample_post None None PNone)
            (fresh NoTable)) =
       mkResponse InternalServerError 500 "text/html"
  /\ status (fst (serve (Postmark.handle_send_email sample_post None None
                           (PList []))
                    (fresh NoTable))) <> 400.
Proof.
  split; [reflexivity |]. split; [reflexivity | discriminate].
Qed.

Lemma webhook_rejects_missing_fields_witness :
  fst (serve (Twilioo.twilio_webhook (sample_groq "1") sample_repr
                [("From", "whatsapp:+910000000000")])
         (fresh (Table sample_rooms))) =
    mkResponse
      (Raw "<Response><Message>Error: Phone number and message are required.</Message></Response>")
      400 "application/xml"
  /\ fst (serve (Twilioo.twilio_webhook (sample_groq "1") sample_repr
                   [("From", "whatsapp:+910000000000"); ("Body", "")])
            (fresh (Table sample_rooms))) =
       mkResponse
         (Raw "<Response><Message>Error: Phone number and message are required.</Message></Response>")
         400 "application/xml".
Proof.
  split.
  - apply (webhook_rejects_missing_fields (sample_groq "1") sample_repr
             [("From", "whatsapp:+910000000000")] (Table sample_rooms)).
    right. reflexivity.
  - apply (webhook_rejects_missing_fields (sample_groq "1") sample_repr
             [("From", "whatsapp:+910000000000"); ("Body", "")]
             (Table sample_rooms)).
    right. reflexivity.
Defined.

Lemma send_email_defaults_witness :
  email_calls
    (trace (snd (serve (Postmark.handle_send_email sample_post None None
                          (PDict [("email", PStr "guest@example.com")]))
                   (fresh NoTable)))) =
    [(PStr "guest@example.com",
      PStr "Room Availability at Thira Beach Home",
      PStr "Here are the details of the available rooms.")]
  /\ status (fst (serve (Postmark.handle_send_email sample_post None None
                           (PDict [("email", PStr "guest@example.com")]))
                    (fresh NoTable))) <> 400.
Proof.
  destruct (send_email_defaults sample_post None None
              [("email", PStr "guest@example.com")] NoTable eq_refl)
    as (subject & body & Hcall & Hs & Hb & _ & _ & _ & Hst).
  rewrite (Hs eq_refl), (Hb eq_refl) in Hcall.
  split; [exact Hcall | exact Hst].
Defined.

Lemma webhook_unclassified_is_200_witness :
  fst (serve (Twilioo.twilio_webhook (sample_groq "maybe") sample_repr sample_form)
         (fresh (Table sample_rooms))) =
    mkResponse (TwiML "Unable to classify your query.") 200 "application/xml".
Proof.
  apply (webhook_unclassified_is_200 (sample_groq "maybe") sample_repr
           sample_form "whatsapp:+910000000000" sample_query "maybe"
           (Table sample_rooms));
    first [reflexivity | discriminate].
Defined.

(** * Further properties of the code *)

(** ** app.py: every run of the page *)

Section Page.

Variable groq : chat_request -> outcome string.
Variable key : option string.

Abbreviation page query clicked d :=
  (trace (snd (App.main groq key query clicked (fresh d)))).

Abbreviation env_hint :=
  (St (StInfo "Please make sure you have set up your .env file with the GROQ_API_KEY")).

Lemma main_no_key (query : string) (clicked : bool) (w : world) :
  truthy_str key = false ->
  App.main groq key query clicked w =
    (Return tt,
     log w [St (StError "An error occurred: GROQ_API_KEY not found in environment variables. Please check your .env file.");
            env_hint]).
Proof.
  intros Hkey. unfold App.main.
  erewrite run_try_except_raise.
  2:{ apply run_bind_raise. unfold App.init_app. rewrite Hkey. reflexivity. }
  erewrite run_bind; [| apply run_emit].
  now rewrite run_emit, log_log.
Qed.

Lemma main_store_unavailable (query : string) (clicked : bool) (w : world)
    (err : string) :
  truthy_str key = true -> db w = Unavailable err ->
  App.main groq key query clicked w =
    (Return tt,
     log w [Sql Connect;
            St (StError ("An error occurred: " ++ App.unbound_conn));
            env_hint]).
Proof.
  intros Hkey Hdb. unfold App.main.
  erewrite run_try_except_raise.
  2:{ erewrite run_bind; [| apply init_app_key; exact Hkey].
      apply run_bind_raise.
      apply (init_database_unavailable w err Hdb). }
  erewrite run_bind; [| apply run_emit].
  now rewrite run_emit, !log_log.
Qed.

(** The run up to the test of the button. *)
Ltac to_button Hkey Hav :=
  unfold App.main; apply run_try_except;
  erewrite run_bind; [| apply init_app_key; exact Hkey];
  erewrite run_bind; [| apply init_database_available; exact Hav];
  do 3 (erewrite run_bind; [| apply run_emit]).

Ltac same_page :=
  unfold log; cbn [db trace app]; f_equal;
  rewrite <- ?app_assoc; reflexivity.

Lemma main_no_click (query : string) (w : world) :
  truthy_str key = true -> available (db w) = true ->
  App.main groq key query false w =
    (Return tt,
     mkWorld (Table (records (db w)))
       (trace w ++ map Sql init_ops ++ map St page_head)).
Proof.
  intros Hkey Hav. to_button Hkey Hav. unfold ret. same_page.
Qed.

Lemma main_empty_query (w : world) :
  truthy_str key = true -> available (db w) = true ->
  App.main groq key "" true w =
    (Return tt,
     mkWorld (Table (records (db w)))
       (trace w ++ map Sql init_ops ++ map St page_head
        ++ [St (StError "Please enter a query before submitting.")])).
Proof.
  intros Hkey Hav. to_button Hkey Hav.
  change ("" =? "")%string with true. cbv iota.
  rewrite run_emit. same_page.
Qed.

(** [classify_query] on every answer of the model: an exception is shown
    on the page and turned into [None]. *)
Lemma app_classify_run (query : string) (w : world) :
  App.classify_query groq query w =
    (Return (App.classify_result groq query),
     log w ([CallClassify (PStr query); Groq (App.classify_request query)]
            ++ match groq (App.classify_request query) with
               | Return _ => []
               | Raise e => [St (StError ("Error classifying query: " ++ exn_str e))]
               end)).
Proof.
  unfold App.classify_query, App.classify_result.
  erewrite run_bind; [| apply run_emit].
  unfold try_except. erewrite run_bind; [| apply run_emit].
  unfold bind, lift.
  destruct (groq (App.classify_request query)) as [c | e].
  - rewrite log_log. reflexivity.
  - rewrite run_emit, !log_log. reflexivity.
Qed.

Lemma main_classifier_raises (query : string) (e : exn) (w : world) :
  truthy_str key = true -> available (db w) = true ->
  (query =? "")%string = false ->
  groq (App.classify_request query) = Raise e ->
  App.main groq key query true w =
    (Return tt,
     mkWorld (Table (records (db w)))
       (trace w ++ ui_start query
        ++ [St (StError ("Error classifying query: " ++ exn_str e));
            St (StError "Failed to classify your query. Please try again.")])).
Proof.
  intros Hkey Hav Hq He. to_button Hkey Hav.
  cbv iota. rewrite Hq.
  erewrite run_bind; [| apply app_classify_run].
  unfold App.classify_result. rewrite He. cbn [truthy_str negb].
  rewrite run_emit. unfold ui_start. same_page.
Qed.

(** X1.  Without [GROQ_API_KEY] (unset or empty) a run shows the error of
    [init_app] and the hint about the [.env] file and nothing else: the
    store is not opened and the model is not called. *)
Theorem page_without_api_key (query : string) (clicked : bool) (d : database) :
  truthy_str key = false ->
  rendered (page query clicked d) =
    [StError "An error occurred: GROQ_API_KEY not found in environment variables. Please check your .env file.";
     StInfo "Please make sure you have set up your .env file with the GROQ_API_KEY"]
  /\ store_ops (page query clicked d) = []
  /\ count_events is_groq (page query clicked d) = 0%nat.
Proof.
  intros Hkey. rewrite (main_no_key query clicked (fresh d) Hkey).
  cbn [snd]. rewrite trace_log_fresh. repeat split.
Qed.

(** X2.  When [rooms.db] cannot be opened, the exception that leaves
    [init_database] is the [UnboundLocalError] of its [finally] clause,
    which closes a connection that was never made: the error of sqlite3 is
    lost.  The page shows that error and the hint about the [.env] file,
    without its head, and the model is not called. *)
Theorem page_store_unavailable (query : string) (clicked : bool) (err : string) :
  truthy_str key = true ->
  fst (App.init_database (fresh (Unavailable err))) =
    Raise (UnboundLocalError App.unbound_conn)
  /\ rendered (page query clicked (Unavailable err)) =
       [StError ("An error occurred: " ++ App.unbound_conn);
        StInfo "Please make sure you have set up your .env file with the GROQ_API_KEY"]
  /\ store_ops (page query clicked (Unavailable err)) = [Connect]
  /\ count_events is_groq (page query clicked (Unavailable err)) = 0%nat.
Proof.
  intros Hkey. split.
  - now rewrite (init_database_unavailable (fresh (Unavailable err)) err).
  - rewrite (main_store_unavailable query clicked (fresh (Unavailable err)) err
               Hkey eq_refl).
    cbn [snd]. rewrite trace_log_fresh. repeat split.
Qed.

(** X3.  A run that follows no click, or a click with an empty text area,
    initialises the store, shows the head of the page (after a click also
    the request to enter a query) and calls neither the classifier nor
    the generator. *)
Theorem page_without_query (query : string) (clicked : bool) (d : database) :
  truthy_str key = true -> available d = true ->
  clicked = false \/ query = "" ->
  rendered (page query clicked d) =
    (page_head ++
     (if clicked then [StError "Please enter a query before submitting."]
      else []))%list
  /\ store_ops (page query clicked d) = init_ops
  /\ classifier_calls (page query clicked d) = []
  /\ generator_calls (page query clicked d) = []
  /\ count_events is_groq (page query clicked d) = 0%nat.
Proof.
  intros Hkey Hav Hno. destruct clicked.
  - destruct Hno as [Hno | ->]; [discriminate |].
    rewrite (main_empty_query (fresh d) Hkey Hav).
    cbn [snd trace fresh]. repeat split.
  - rewrite (main_no_click query (fresh d) Hkey Hav).
    cbn [snd trace fresh]. repeat split.
Qed.

(** X4.  When the call of the classifier raises, the page shows the
    exception and then that the query could not be classified; the
    generator is not called and the room rows are not fetched. *)
Theorem page_classifier_raises (query : string) (e : exn) (d : database) :
  truthy_str key = true -> available d = true -> query <> "" ->
  groq (App.classify_request query) = Raise e ->
  rendered (page query true d) =
    (page_head ++
     [StError ("Error classifying query: " ++ exn_str e);
      StError "Failed to classify your query. Please try again."])%list
  /\ generator_calls (page query true d) = []
  /\ fetch_calls (page query true d) = 0%nat.
Proof.
  intros Hkey Hav Hq He. apply String.eqb_neq in Hq.
  rewrite (main_classifier_raises query e (fresh d) Hkey Hav Hq He).
  cbn [snd trace fresh]. unfold ui_start. repeat split.
Qed.

(** X5.  [generate_response] of app.py never raises: what it returns is
    the answer of the model, or the text of the exception after
    "Error generating response: ".  The page writes either one under the
    banner "Response:". *)
Theorem page_shows_what_generate_returns (query : string) (d : database) :
  truthy_str key = true -> available d = true -> query <> "" ->
  App.classify_result groq query = Some "2" ->
  rendered (page query true d) =
    (page_head ++
     [StSuccess "Response:";
      StWrite match groq (App.generate_request query App.HOTEL_INFO) with
              | Return reply => reply
              | Raise e => "Error generating response: " ++ exn_str e
              end])%list.
Proof.
  intros Hkey Hav Hq Hc. apply String.eqb_neq in Hq.
  rewrite (main_category_2 groq key query (fresh d) Hkey Hav Hq Hc).
  cbn [snd trace fresh]. unfold ui_start. reflexivity.
Qed.

(** X6.  On the page the generator is called only for a query the
    classifier has answered with "1" or "2": in every other run (no key,
    no store, no click, no query, an exception or another answer of the
    classifier) there is no call of [generate_response]. *)
Theorem page_generates_only_when_classified (query : string) (clicked : bool)
    (d : database) :
  generator_calls (page query clicked d) <> [] ->
  clicked = true /\ query <> ""
  /\ (App.classify_result groq query = Some "1"
      \/ App.classify_result groq query = Some "2").
Proof.
  intros Hgen.
  destruct (truthy_str key) eqn:Hkey.
  2:{ rewrite (main_no_key query clicked (fresh d) Hkey) in Hgen.
      now destruct Hgen. }
  destruct (available d) eqn:Hav.
  2:{ destruct d as [err | |]; try discriminate.
      rewrite (main_store_unavailable query clicked (fresh (Unavailable err))
                 err Hkey eq_refl) in Hgen.
      now destruct Hgen. }
  destruct clicked.
  2:{ rewrite (main_no_click query (fresh d) Hkey Hav) in Hgen.
      now destruct Hgen. }
  destruct (String.eqb_spec query "") as [-> | Hq].
  { rewrite (main_empty_query (fresh d) Hkey Hav) in Hgen. now destruct Hgen. }
  split; [reflexivity |]. split; [exact Hq |].
  apply String.eqb_neq in Hq.
  destruct (App.classify_result groq query) as [t |] eqn:Hc.
  - destruct (String.eqb_spec t "1") as [-> | H1]; [now left |].
    destruct (String.eqb_spec t "2") as [-> | H2]; [now right |].
    rewrite (main_unclassified groq key query t (fresh d) Hkey Hav Hq Hc H1 H2)
      in Hgen.
    cbn [snd trace fresh] in Hgen. unfold ui_start in Hgen.
    rewrite !generator_calls_app in Hgen. now destruct Hgen.
  - unfold App.classify_result in Hc.
    destruct (groq (App.classify_request query)) as [c | e] eqn:He;
      [discriminate |].
    rewrite (main_classifier_raises query e (fresh d) Hkey Hav Hq He) in Hgen.
    cbn [snd trace fresh] in Hgen. unfold ui_start in Hgen.
    rewrite !generator_calls_app in Hgen. now destruct Hgen.
Qed.

End Page.

(** ** app.py: the store *)

(** [fetch_room_details] of app.py on every state of the store. *)
Lemma app_fetch_run (d : database) :
  App.fetch_room_details (fresh d) =
    (Return match d with
            | Unavailable _ =>
                "Unable to fetch room details due to database connection error."
            | NoTable => "Error fetching room details: " ++ exn_str no_such_table
            | Table rows => room_context rows
            end,
     mkWorld d
       (CallFetchRooms ::
        match d with
        | Unavailable err =>
            [Sql Connect; St (StError ("Database connection error: " ++ err))]
        | _ => map Sql fetch_ops
        end)).
Proof.
  pose proof (app_fetch_table (fresh d)) as Htable.
  destruct d as [err | | rows].
  - unfold App.fetch_room_details.
    erewrite run_bind; [| apply run_emit].
    erewrite run_bind.
    2:{ unfold App.connect_to_db, try_except_sqlite.
        erewrite run_try_except_raise.
        2:{ apply run_bind_raise. now apply connect_unavailable. }
        cbn [is_sqlite_error exn_str].
        erewrite run_bind; [| apply run_emit]. reflexivity. }
    reflexivity.
  - unfold App.fetch_room_details.
    erewrite run_bind; [| apply run_emit].
    erewrite run_bind.
    2:{ unfold App.connect_to_db, try_except_sqlite. apply run_try_except.
        erewrite run_bind; [| now apply connect_available]. reflexivity. }
    cbv beta iota. erewrite run_try_finally.
    + reflexivity.
    + unfold try_except_sqlite. erewrite run_try_except_raise.
      2:{ apply run_bind_raise. now apply select_no_table. }
      reflexivity.
    + reflexivity.
  - now rewrite (Htable rows eq_refl).
Qed.

(** X7.  [fetch_room_details] of app.py never raises.  It returns a text
    that is not empty: the context of the table, a text about the
    connection when the file cannot be opened, or a text with the error of
    sqlite3 when the [SELECT] fails.  It leaves the store as it found it,
    and it closes the connection whenever it has opened one, also after a
    failed [SELECT]. *)
Theorem app_fetch_never_raises (d : database) :
  (exists s,
     fst (App.fetch_room_details (fresh d)) = Return s /\ s <> ""
     /\ (forall rows, d = Table rows -> s = room_context rows)
     /\ (d = NoTable -> s = "Error fetching room details: no such table: room_data")
     /\ (available d = false ->
         s = "Unable to fetch room details due to database connection error."))
  /\ db (snd (App.fetch_room_details (fresh d))) = d
  /\ store_ops (trace (snd (App.fetch_room_details (fresh d)))) =
       (if available d then [Connect; Execute SelectTitleDescription; Close]
        else [Connect]).
Proof.
  rewrite app_fetch_run. cbn [fst snd db trace].
  destruct d as [err | | rows].
  - split; [| split; reflexivity].
    eexists. split; [reflexivity |]. repeat split; try discriminate.
  - split; [| split; reflexivity].
    eexists. split; [reflexivity |]. repeat split; try discriminate.
  - split; [| split; reflexivity].
    exists (room_context rows). split; [reflexivity |].
    repeat split; try discriminate.
    + destruct rows as [| r rs]; [discriminate |].
      apply String.eqb_neq, combined_description_not_empty.
    + now intros rows' [= ->].
Qed.

(** X8.  On a file that opens, [init_database] returns and leaves the
    table [room_data] in the store with the rows it had (none when it had
    to create the table); a second run changes nothing. *)
Theorem init_database_idempotent (w : world) :
  available (db w) = true ->
  fst (App.init_database w) = Return tt
  /\ db (snd (App.init_database w)) = Table (records (db w))
  /\ db (snd (App.init_database (snd (App.init_database w)))) =
       db (snd (App.init_database w)).
Proof.
  intros Hav. rewrite (init_database_available w Hav). cbn [fst snd db].
  split; [reflexivity |]. split; [reflexivity |].
  now rewrite init_database_available.
Qed.

(** X9.  On a file without the table [room_data], a query of category "1"
    on the page is answered from the context "No room details available.":
    [init_database] has created the table before the rows are fetched,
    and the table is there after the run. *)
Theorem page_creates_missing_table
    (groq : chat_request -> outcome string) (key : option string)
    (query : string) :
  truthy_str key = true -> query <> "" ->
  App.classify_result groq query = Some "1" ->
  generator_calls (trace (snd (App.main groq key query true (fresh NoTable)))) =
    [(PStr query, "No room details available.")]
  /\ db (snd (App.main groq key query true (fresh NoTable))) = Table [].
Proof.
  intros Hkey Hq Hc. apply String.eqb_neq in Hq.
  rewrite (main_category_1 groq key query (fresh NoTable) Hkey eq_refl Hq Hc).
  cbn [snd trace fresh db records]. unfold ui_start.
  rewrite !generator_calls_app. split; reflexivity.
Qed.

(** ** twilioo.py: the ways out of the two views *)

Lemma serve_bind_raise {A} (m : M A) (k : A -> M response) (w w' : world)
    (e : exn) :
  m w = (Raise e, w') -> serve (bind m k) w = (error_page, w').
Proof.
  intros H. unfold serve. now rewrite (run_bind_raise m k w w' e H).
Qed.

Section Api.

Variable groq : chat_request -> outcome string.
Variable repr : pyval -> string.

Abbreviation api_query data w := (serve (Twilioo.handle_query groq repr data) w).
Abbreviation api_webhook form w := (serve (Twilioo.twilio_webhook groq repr form) w).
Abbreviation asked q :=
  [CallClassify q; Groq (Twilioo.classify_request (py_str repr q))].

(** [classify_query] of twilioo.py on every answer of the model. *)
Lemma api_classify_run (query : pyval) (w : world) :
  Twilioo.classify_query groq repr query w =
    (Twilioo.classify_result groq repr query, log w (asked query)).
Proof.
  unfold Twilioo.classify_query, Twilioo.classify_result.
  do 2 (erewrite run_bind; [| apply run_emit]).
  unfold bind, lift. rewrite log_log.
  now destruct (groq (Twilioo.classify_request (py_str repr query))).
Qed.

(** [fetch_room_details] of twilioo.py on a store that has no table to
    read: the exception of sqlite3 leaves the function, and a connection
    that was opened stays open. *)
Lemma api_fetch_raises (w : world) :
  (forall rows, db w <> Table rows) ->
  exists e ops,
    Twilioo.fetch_room_details w = (Raise e, log w (CallFetchRooms :: map Sql ops))
    /\ ~ In Close ops.
Proof.
  intros Hno. unfold Twilioo.fetch_room_details.
  erewrite run_bind; [| apply run_emit].
  destruct (db w) as [err | | rows] eqn:Hdb.
  - exists (SqliteError err), [Connect]. split.
    + erewrite run_bind_raise;
        [| apply connect_unavailable; rewrite db_log; exact Hdb].
      now rewrite log_log.
    + intros [H | []]; discriminate.
  - exists no_such_table, [Connect; Execute SelectTitleDescription]. split.
    + erewrite run_bind;
        [| apply connect_available; rewrite db_log, Hdb; reflexivity].
      erewrite run_bind_raise; [| apply select_no_table; exact Hdb].
      now rewrite !log_log.
    + intros [H | [H | []]]; discriminate.
  - now destruct (Hno rows).
Qed.

Lemma handle_query_rejected (body : list (string * pyval)) (w : world) :
  truthy (get_default body "query" (PStr "")) = false ->
  api_query (PDict body) w =
    (jsonify [("error", PStr "Query parameter is required")] 400, w).
Proof.
  intros H. unfold Twilioo.handle_query. cbv zeta. rewrite H. reflexivity.
Qed.

Lemma handle_query_not_a_dict (data : pyval) (w : world) :
  (forall body, data <> PDict body) -> api_query data w = (error_page, w).
Proof.
  intros H. destruct data; try reflexivity. now destruct (H d).
Qed.

Lemma handle_query_classifier_raises (body : list (string * pyval)) (e : exn)
    (w : world) :
  truthy (get_default body "query" (PStr "")) = true ->
  Twilioo.classify_result groq repr (get_default body "query" (PStr "")) = Raise e ->
  api_query (PDict body) w =
    (error_page, log w (asked (get_default body "query" (PStr "")))).
Proof.
  intros Hq He. unfold Twilioo.handle_query. cbv zeta. rewrite Hq. cbn [negb].
  erewrite serve_bind_raise; [reflexivity |].
  now rewrite api_classify_run, He.
Qed.

Lemma webhook_classifier_raises (form : list (string * string))
    (from msg : string) (e : exn) (w : world) :
  Twilioo.form_get "From" form = Some from -> from <> "" ->
  Twilioo.form_get "Body" form = Some msg -> msg <> "" ->
  Twilioo.classify_result groq repr (PStr msg) = Raise e ->
  api_webhook form w = (error_page, log w (asked (PStr msg))).
Proof.
  intros Hf Hfe Hb Hbe He. unfold Twilioo.twilio_webhook. cbv zeta.
  rewrite (webhook_fields form from msg Hf Hfe Hb Hbe), Hb.
  erewrite serve_bind_raise; [reflexivity |].
  now rewrite api_classify_run, He.
Qed.

(** X10.  POST /query with a body that has no field [query], or an empty
    or otherwise false one: the answer is 400 with the error about the
    parameter, and nothing is called. *)
Theorem query_is_required (body : list (string * pyval)) (d : database) :
  truthy (get_default body "query" (PStr "")) = false ->
  fst (api_query (PDict body) (fresh d)) =
    mkResponse (Json (PDict [("error", PStr "Query parameter is required")]))
      400 "application/json"
  /\ trace (snd (api_query (PDict body) (fresh d))) = [].
Proof.
  intros H. rewrite (handle_query_rejected body (fresh d) H). split; reflexivity.
Qed.

(** X11.  When the call of the classifier raises, POST /query and the
    webhook answer with status 500: the generator is not called and the
    store is not opened. *)
Theorem api_classifier_raises (e : exn) (d : database) :
  (forall body query,
     dict_get "query" body = Some query -> truthy query = true ->
     groq (Twilioo.classify_request (py_str repr query)) = Raise e ->
     status (fst (api_query (PDict body) (fresh d))) = 500
     /\ generator_calls (trace (snd (api_query (PDict body) (fresh d)))) = []
     /\ store_ops (trace (snd (api_query (PDict body) (fresh d)))) = [])
  /\ (forall form from msg,
        Twilioo.form_get "From" form = Some from -> from <> "" ->
        Twilioo.form_get "Body" form = Some msg -> msg <> "" ->
        groq (Twilioo.classify_request msg) = Raise e ->
        status (fst (api_webhook form (fresh d))) = 500
        /\ generator_calls (trace (snd (api_webhook form (fresh d)))) = []
        /\ store_ops (trace (snd (api_webhook form (fresh d)))) = []).
Proof.
  split.
  - intros body query Hget Hq He.
    pose proof (handle_query_classifier_raises body e (fresh d)) as Hrun.
    rewrite (query_of_body body query Hget) in Hrun.
    rewrite Hrun; [repeat split | exact Hq |].
    unfold Twilioo.classify_result. now rewrite He.
  - intros form from msg Hf Hfe Hb Hbe He.
    rewrite (webhook_classifier_raises form from msg e (fresh d) Hf Hfe Hb Hbe);
      [repeat split |].
    unfold Twilioo.classify_result. cbn [py_str]. now rewrite He.
Qed.

(** X12.  A query of category "1" on a store that has no table to read
    (the file cannot be opened, or it has no table [room_data]): POST
    /query and the webhook answer with status 500, the generator is not
    called, and the connection is not closed. *)
Theorem api_store_failure (d : database) :
  (forall rows, d <> Table rows) ->
  (forall body query,
     dict_get "query" body = Some query -> truthy query = true ->
     Twilioo.classify_result groq repr query = Return "1" ->
     fst (api_query (PDict body) (fresh d)) = error_page
     /\ generator_calls (trace (snd (api_query (PDict body) (fresh d)))) = []
     /\ ~ In Close (store_ops (trace (snd (api_query (PDict body) (fresh d))))))
  /\ (forall form from msg,
        Twilioo.form_get "From" form = Some from -> from <> "" ->
        Twilioo.form_get "Body" form = Some msg -> msg <> "" ->
        Twilioo.classify_result groq repr (PStr msg) = Return "1" ->
        fst (api_webhook form (fresh d)) = error_page
        /\ generator_calls (trace (snd (api_webhook form (fresh d)))) = []
        /\ ~ In Close (store_ops (trace (snd (api_webhook form (fresh d)))))).
Proof.
  intros Hno.
  assert (Hops : forall q ops,
            store_ops (asked q ++ CallFetchRooms :: map Sql ops) = ops).
  { intros q ops. cbn [app store_ops]. induction ops as [| op ops IH];
      [reflexivity | cbn [map store_ops]; now rewrite IH]. }
  assert (Hgen : forall q ops,
            generator_calls (asked q ++ CallFetchRooms :: map Sql ops) = []).
  { intros q ops. cbn [app generator_calls]. induction ops as [| op ops IH];
      [reflexivity | exact IH]. }
  split.
  - intros body query Hget Hq Hc. apply query_of_body in Hget.
    unfold Twilioo.handle_query. cbv zeta. rewrite Hget, Hq. cbn [negb].
    erewrite serve_bind; [| rewrite api_classify_run, Hc; reflexivity].
    change ("1" =? "1")%string with true. cbv iota.
    destruct (api_fetch_raises (log (fresh d) (asked query)))
      as (e & ops & Hrun & Hclose); [exact Hno |].
    erewrite serve_bind_raise; [| exact Hrun].
    cbn [fst snd]. rewrite log_log, trace_log_fresh, Hops, Hgen. auto.
  - intros form from msg Hf Hfe Hb Hbe Hc.
    unfold Twilioo.twilio_webhook. cbv zeta.
    rewrite (webhook_fields form from msg Hf Hfe Hb Hbe), Hb.
    erewrite serve_bind; [| rewrite api_classify_run, Hc; reflexivity].
    change ("1" =? "1")%string with true. cbv iota.
    destruct (api_fetch_raises (log (fresh d) (asked (PStr msg))))
      as (e & ops & Hrun & Hclose); [exact Hno |].
    erewrite serve_bind_raise.
    2:{ apply run_bind_raise. exact Hrun. }
    cbn [fst snd]. rewrite log_log, trace_log_fresh, Hops, Hgen. auto.
Qed.

(** X13.  The reply of the generator reaches the caller unchanged: for a
    query of category "2", POST /query answers 200 with the reply as the
    field [response] and the webhook answers 200 with the reply as its
    message; when the call of the generator raises, both answer with
    status 500. *)
Theorem api_reply_is_verbatim (d : database) :
  (forall body query,
     dict_get "query" body = Some query -> truthy query = true ->
     Twilioo.classify_result groq repr query = Return "2" ->
     fst (api_query (PDict body) (fresh d)) =
       match groq (Twilioo.generate_request (py_str repr query) Twilioo.HOTEL_INFO) with
       | Return reply =>
           mkResponse (Json (PDict [("response", PStr reply)])) 200 "application/json"
       | Raise _ => mkResponse InternalServerError 500 "text/html"
       end)
  /\ (forall form from msg,
        Twilioo.form_get "From" form = Some from -> from <> "" ->
        Twilioo.form_get "Body" form = Some msg -> msg <> "" ->
        Twilioo.classify_result groq repr (PStr msg) = Return "2" ->
        fst (api_webhook form (fresh d)) =
          match groq (Twilioo.generate_request msg Twilioo.HOTEL_INFO) with
          | Return reply => mkResponse (TwiML reply) 200 "application/xml"
          | Raise _ => mkResponse InternalServerError 500 "text/html"
          end).
Proof.
  split.
  - intros body query Hget Hq Hc.
    pose proof (handle_query_category_2 groq repr body (fresh d)) as Hrun.
    rewrite (query_of_body body query Hget) in Hrun.
    rewrite (Hrun Hq Hc). cbn [fst]. unfold Twilioo.generate_result.
    now destruct (groq _).
  - intros form from msg Hf Hfe Hb Hbe Hc.
    rewrite (webhook_category_2 groq repr form from msg (fresh d)
               Hf Hfe Hb Hbe Hc).
    cbn [fst py_str]. unfold Twilioo.generate_result. cbn [py_str].
    now destruct (groq _).
Qed.

(** X14.  The webhook requires the sender's number and never uses it: two
    forms with the same [Body] and any two non-empty numbers get the same
    answer and make the same calls. *)
Theorem webhook_ignores_the_number (form1 form2 : list (string * string))
    (w : world) :
  truthy_str (Twilioo.form_get "From" form1) = true ->
  truthy_str (Twilioo.form_get "From" form2) = true ->
  Twilioo.form_get "Body" form1 = Twilioo.form_get "Body" form2 ->
  api_webhook form1 w = api_webhook form2 w.
Proof.
  intros H1 H2 Hb. unfold Twilioo.twilio_webhook. cbv zeta.
  now rewrite H1, H2, Hb.
Qed.

(** X15.  POST /query and the webhook call the generator only for a query
    the classifier has answered with "1" or "2": a request with a call of
    [generate_response] had a body or a form with a query, and that
    answer. *)
Theorem api_generates_only_when_classified (d : database) :
  (forall data,
     generator_calls (trace (snd (api_query data (fresh d)))) <> [] ->
     exists body query,
       data = PDict body /\ dict_get "query" body = Some query
       /\ (Twilioo.classify_result groq repr query = Return "1"
           \/ Twilioo.classify_result groq repr query = Return "2"))
  /\ (forall form,
        generator_calls (trace (snd (api_webhook form (fresh d)))) <> [] ->
        exists msg,
          Twilioo.form_get "Body" form = Some msg
          /\ (Twilioo.classify_result groq repr (PStr msg) = Return "1"
              \/ Twilioo.classify_result groq repr (PStr msg) = Return "2")).
Proof.
  split.
  - intros data Hgen.
    destruct data as [| b | z | s | l | body];
      try (rewrite handle_query_not_a_dict in Hgen by discriminate;
           now destruct Hgen).
    destruct (truthy (get_default body "query" (PStr ""))) eqn:Hq.
    2:{ rewrite (handle_query_rejected body (fresh d) Hq) in Hgen.
        now destruct Hgen. }
    unfold get_default in Hq.
    destruct (dict_get "query" body) as [query |] eqn:Hget; [| discriminate].
    exists body, query. split; [reflexivity |]. split; [exact Hget |].
    pose proof (query_of_body body query Hget) as E.
    destruct (Twilioo.classify_result groq repr query) as [t | e] eqn:Hc.
    + destruct (String.eqb_spec t "1") as [-> | H1]; [now left |].
      destruct (String.eqb_spec t "2") as [-> | H2]; [now right |].
      pose proof (handle_query_unclassified groq repr body t (fresh d)) as Hrun.
      rewrite E in Hrun. rewrite (Hrun Hq Hc H1 H2) in Hgen.
      now destruct Hgen.
    + pose proof (handle_query_classifier_raises body e (fresh d)) as Hrun.
      rewrite E in Hrun. rewrite (Hrun Hq Hc) in Hgen. now destruct Hgen.
  - intros form Hgen.
    destruct (truthy_str (Twilioo.form_get "From" form)) eqn:Hf.
    2:{ rewrite (webhook_rejected groq repr form (fresh d) (or_introl Hf))
          in Hgen. now destruct Hgen. }
    destruct (truthy_str (Twilioo.form_get "Body" form)) eqn:Hb.
    2:{ rewrite (webhook_rejected groq repr form (fresh d) (or_intror Hb))
          in Hgen. now destruct Hgen. }
    destruct (Twilioo.form_get "From" form) as [from |] eqn:Ef; [| discriminate].
    destruct (Twilioo.form_get "Body" form) as [msg |] eqn:Eb; [| discriminate].
    cbn [truthy_str] in Hf, Hb.
    apply negb_true_iff, String.eqb_neq in Hf, Hb.
    exists msg. split; [reflexivity |].
    destruct (Twilioo.classify_result groq repr (PStr msg)) as [t | e] eqn:Hc.
    + destruct (String.eqb_spec t "1") as [-> | H1]; [now left |].
      destruct (String.eqb_spec t "2") as [-> | H2]; [now right |].
      rewrite (webhook_unclassified groq repr form from msg t (fresh d)
                 Ef Hf Eb Hb Hc H1 H2) in Hgen.
      now destruct Hgen.
    + rewrite (webhook_classifier_raises form from msg e (fresh d)
                 Ef Hf Eb Hb Hc) in Hgen.
      now destruct Hgen.
Qed.

(** X26.  [fetch_room_details] never returns an empty text, so the
    webhook never takes its reply "No details found for that number." from
    the test of [details]: for a query of category "1", an answer with
    that message is the reply of a call of the generator. *)
Theorem webhook_details_are_never_empty (form : list (string * string))
    (from msg : string) (d : database) :
  Twilioo.form_get "From" form = Some from -> from <> "" ->
  Twilioo.form_get "Body" form = Some msg -> msg <> "" ->
  Twilioo.classify_result groq repr (PStr msg) = Return "1" ->
  body (fst (api_webhook form (fresh d))) =
    TwiML "No details found for that number." ->
  exists context,
    generator_calls (trace (snd (api_webhook form (fresh d)))) =
      [(PStr msg, context)]
    /\ groq (Twilioo.generate_request msg context) =
         Return "No details found for that number.".
Proof.
  intros Hf Hfe Hb Hbe Hc Hbody.
  destruct d as [err | | rows].
  - exfalso. revert Hbody.
    unfold Twilioo.twilio_webhook. cbv zeta.
    rewrite (webhook_fields form from msg Hf Hfe Hb Hbe), Hb.
    erewrite serve_bind; [| rewrite api_classify_run, Hc; reflexivity].
    change ("1" =? "1")%string with true. cbv iota.
    destruct (api_fetch_raises (log (fresh (Unavailable err)) (asked (PStr msg))))
      as (e & ops & Hrun & _); [discriminate |].
    erewrite serve_bind_raise; [discriminate |].
    apply run_bind_raise. exact Hrun.
  - exfalso. revert Hbody.
    unfold Twilioo.twilio_webhook. cbv zeta.
    rewrite (webhook_fields form from msg Hf Hfe Hb Hbe), Hb.
    erewrite serve_bind; [| rewrite api_classify_run, Hc; reflexivity].
    change ("1" =? "1")%string with true. cbv iota.
    destruct (api_fetch_raises (log (fresh NoTable) (asked (PStr msg))))
      as (e & ops & Hrun & _); [discriminate |].
    erewrite serve_bind_raise; [discriminate |].
    apply run_bind_raise. exact Hrun.
  - revert Hbody.
    rewrite (webhook_category_1 groq repr form from msg (fresh (Table rows)) rows
               Hf Hfe Hb Hbe Hc eq_refl).
    cbn [fst snd]. rewrite trace_log_fresh, !generator_calls_app.
    unfold Twilioo.generate_result. cbn [py_str].
    intros Hbody. exists (room_context rows). split; [reflexivity |].
    destruct (groq (Twilioo.generate_request msg (room_context rows)))
      as [reply | e]; [| discriminate].
    cbn [twiml_reply body] in Hbody. now injection Hbody as ->.
Qed.

End Api.

(** X16.  A JSON body that is no object (a list, a string, a number,
    [null]): POST /query and POST /send_email answer with status 500 and
    nothing is called, since [data.get] raises. *)
Theorem body_must_be_an_object
    (groq : chat_request -> outcome string) (repr : pyval -> string)
    (post : http_post -> outcome http_reply) (pkey sender : option string)
    (data : pyval) (w : world) :
  (forall body, data <> PDict body) ->
  serve (Twilioo.handle_query groq repr data) w =
    (mkResponse InternalServerError 500 "text/html", w)
  /\ serve (Postmark.handle_send_email post pkey sender data) w =
       (mkResponse InternalServerError 500 "text/html", w).
Proof.
  intros H. split.
  - now apply handle_query_not_a_dict.
  - destruct data; try reflexivity. now destruct (H d).
Qed.

(** ** postmark.py *)

Section MailFacts.

Variable post : http_post -> outcome http_reply.
Variable pkey sender : option string.

Abbreviation mailed fields d :=
  (serve (Postmark.handle_send_email post pkey sender (PDict fields)) (fresh d)).
Abbreviation subject_of fields :=
  (get_default fields "subject" (PStr "Room Availability at Thira Beach Home")).
Abbreviation body_of fields :=
  (get_default fields "body" (PStr "Here are the details of the available rooms.")).

(** X17.  Once the mail API has replied, POST /send_email answers with
    status 200 whatever the reply was: a reply with status 200 gives
    [success] true, and any other reply gives [success] false with the
    text of the reply as [error]. *)
Theorem mail_refusal_is_answered_200 (fields : list (string * pyval))
    (d : database) (reply : http_reply) :
  truthy (get fields "email") = true ->
  post (Postmark.postmark_request pkey sender (get fields "email")
          (subject_of fields) (body_of fields)) = Return reply ->
  fst (mailed fields d) =
    mkResponse
      (Json (PDict
         (if (status_code reply =? 200)%Z
          then [("success", PBool true); ("message", PStr "Email sent successfully")]
          else [("success", PBool false); ("error", PStr (text reply))])))
      200 "application/json".
Proof.
  intros He Hp.
  rewrite (send_email_accepted post pkey sender fields (fresh d) He).
  cbn [fst]. unfold Postmark.DEFAULT_SUBJECT, Postmark.DEFAULT_BODY.
  rewrite Hp. reflexivity.
Qed.

(** X18.  A request with a recipient makes exactly one post, to the
    address of the mail API, with the token and the sender of the
    environment and with the recipient, the subject and the body of the
    request as [To], [Subject] and [TextBody], unchanged. *)
Theorem mail_is_posted_once (fields : list (string * pyval)) (d : database) :
  truthy (get fields "email") = true ->
  http_posts (trace (snd (mailed fields d))) =
    [mkPost "https://api.postmarkapp.com/email"
       [("Accept", PStr "application/json");
        ("Content-Type", PStr "application/json");
        ("X-Postmark-Server-Token",
         match pkey with Some k => PStr k | None => PNone end)]
       (PDict [("From", match sender with Some a => PStr a | None => PNone end);
               ("To", get fields "email");
               ("Subject", subject_of fields);
               ("TextBody", body_of fields)])].
Proof.
  intros He.
  rewrite (send_email_accepted post pkey sender fields (fresh d) He).
  reflexivity.
Qed.

End MailFacts.

(** ** Strings: the category and the context *)

Lemma append_assoc (s1 s2 s3 : string) : (s1 ++ s2) ++ s3 = s1 ++ s2 ++ s3.
Proof.
  induction s1 as [| c s1 IH]; [reflexivity |].
  cbn [append]. now rewrite IH.
Qed.

Lemma length_append (s1 s2 : string) :
  String.length (s1 ++ s2) = (String.length s1 + String.length s2)%nat.
Proof.
  induction s1 as [| c s1 IH]; [reflexivity |].
  cbn [append String.length]. now rewrite IH.
Qed.













(** X20.  The context of two lists of rows, one after the other, is the
    two contexts with the separator between them. *)
Theorem context_of_appended_rows (rows1 rows2 : list row) :
  rows1 <> [] -> rows2 <> [] ->
  combined_description (rows1 ++ rows2) =
    combined_description rows1 ++ (nl ++ nl) ++ combined_description rows2.
Proof.
  intros H1 H2. induction rows1 as [| r rs IH]; [contradiction |].
  destruct rs as [| r' rs].
  - destruct rows2 as [| r2 rs2]; [contradiction |]. reflexivity.
  - assert (Hrs : r' :: rs <> []) by discriminate.
    specialize (IH Hrs).
    unfold combined_description in *.
    change ((r :: r' :: rs) ++ rows2)%list with (r :: ((r' :: rs) ++ rows2))%list.
    cbn [map]. rewrite (concat_cons _ _ (map room_block ((r' :: rs) ++ rows2))).
    cbn [app map]. cbn [map] in IH. cbn [app] in IH. cbn [map] in IH.
    rewrite IH.
    rewrite (concat_cons _ (room_block r) (room_block r' :: map room_block rs)).
    now rewrite !append_assoc.
Qed.

(** The length of the context of at least one row. *)
Lemma combined_description_length (r : row) (rs : list row) :
  String.length (combined_description (r :: rs)) =
    (cells_length (r :: rs) + 20 * length (r :: rs) + 2 * length rs)%nat.
Proof.
  assert (Hblock : forall r0,
            String.length (room_block r0) =
            (String.length (cell_str (fst r0))
             + String.length (cell_str (snd r0)) + 20)%nat).
  { intros r0. unfold room_block. rewrite !length_append.
    change (String.length "Room: ") with 6%nat.
    change (String.length nl) with 1%nat.
    change (String.length "Description: ") with 13%nat. lia. }
  revert r. induction rs as [| r' rs IH]; intros r.
  - unfold combined_description. cbn [map String.concat cells_length length].
    rewrite Hblock. lia.
  - specialize (IH r'). unfold combined_description in *.
    change (map room_block (r :: r' :: rs))
      with (room_block r :: map room_block (r' :: rs)).
    rewrite concat_cons.
    change (map room_block (r' :: rs))
      with (room_block r' :: map room_block rs) at 1.
    cbv iota. rewrite !length_append, Hblock, IH.
    change (String.length nl) with 1%nat.
    cbn [cells_length length]. lia.
Qed.

(** X21.  The context [fetch_room_details] returns on a table is never
    cut: with at least one row its length is the length of the texts of
    all the rows, plus 20 characters for the labels of each row and 2 for
    each separator between two rows; with no row it is the 26 characters
    of the fixed text.  Lengths are counted in bytes of the UTF-8 text. *)
Theorem context_length (rows : list row) (w : world) :
  db w = Table rows ->
  exists context,
    fst (App.fetch_room_details w) = Return context
    /\ fst (Twilioo.fetch_room_details w) = Return context
    /\ String.length context =
         match rows with
         | [] => 26%nat
         | _ :: rest =>
             (cells_length rows + 20 * length rows + 2 * length rest)%nat
         end.
Proof.
  intros H. exists (room_context rows).
  rewrite (app_fetch_table w rows H), (api_fetch_table w rows H).
  split; [reflexivity |]. split; [reflexivity |].
  destruct rows as [| r rs]; [reflexivity |].
  apply combined_description_length.
Qed.

(** ** How much a request does *)

Section Costs.

Variable p : event -> bool.

Lemma count_events_app (l1 l2 : list event) :
  count_events p (l1 ++ l2) = (count_events p l1 + count_events p l2)%nat.
Proof.
  induction l1 as [| e l1 IH]; [reflexivity |].
  cbn [app count_events]. rewrite IH. lia.
Qed.

Lemma costs_weaken {A} (n n' : nat) (m : M A) :
  (n <= n')%nat -> costs p n m -> costs p n' m.
Proof.
  intros Hle H w. destruct (H w) as (es & Htr & Hc).
  exists es. split; [exact Htr | lia].
Qed.

(** A step that leaves the trace as it is. *)
Lemma costs_quiet {A} (n : nat) (m : M A) :
  (forall w, trace (snd (m w)) = trace w) -> costs p n m.
Proof.
  intros H w. exists []. rewrite app_nil_r. split; [apply H | cbn; lia].
Qed.

Lemma costs_ret {A} (n : nat) (a : A) : costs p n (ret a).
Proof. now apply costs_quiet. Qed.

Lemma costs_raise {A} (n : nat) (e : exn) : costs p n (@raise A e).
Proof. now apply costs_quiet. Qed.

Lemma costs_lift {A} (n : nat) (r : outcome A) : costs p n (lift r).
Proof. now apply costs_quiet. Qed.

Lemma costs_emit (n : nat) (e : event) :
  ((if p e then 1 else 0) <= n)%nat -> costs p n (emit e).
Proof.
  intros H w. exists [e]. split; [reflexivity |].
  cbn [count_events]. lia.
Qed.

Lemma costs_bind {A B} (n1 n2 n : nat) (m : M A) (k : A -> M B) :
  (n1 + n2 <= n)%nat ->
  costs p n1 m -> (forall a, costs p n2 (k a)) -> costs p n (bind m k).
Proof.
  intros Hle Hm Hk w. unfold bind.
  destruct (Hm w) as (es1 & Htr1 & Hc1).
  destruct (m w) as [[a | e] w1]; cbn [snd] in Htr1.
  - destruct (Hk a w1) as (es2 & Htr2 & Hc2).
    exists (es1 ++ es2)%list. split.
    + now rewrite Htr2, Htr1, app_assoc.
    + rewrite count_events_app. lia.
  - exists es1. split; [exact Htr1 | lia].
Qed.

Lemma costs_try_except {A} (n1 n2 n : nat) (body : M A) (h : exn -> M A) :
  (n1 + n2 <= n)%nat ->
  costs p n1 body -> (forall e, costs p n2 (h e)) ->
  costs p n (try_except body h).
Proof.
  intros Hle Hb Hh w. unfold try_except.
  destruct (Hb w) as (es1 & Htr1 & Hc1).
  destruct (body w) as [[a | e] w1]; cbn [snd] in Htr1.
  - exists es1. split; [exact Htr1 | lia].
  - destruct (Hh e w1) as (es2 & Htr2 & Hc2).
    exists (es1 ++ es2)%list. split.
    + now rewrite Htr2, Htr1, app_assoc.
    + rewrite count_events_app. lia.
Qed.

Lemma costs_try_except_sqlite {A} (n1 n2 n : nat) (body : M A) (h : exn -> M A) :
  (n1 + n2 <= n)%nat ->
  costs p n1 body -> (forall e, costs p n2 (h e)) ->
  costs p n (try_except_sqlite body h).
Proof.
  intros Hle Hb Hh. apply (costs_try_except n1 n2 n); [exact Hle | exact Hb |].
  intros e. destruct (is_sqlite_error e); [apply Hh | apply costs_raise].
Qed.

Lemma costs_try_finally {A} (n1 n2 n : nat) (body : M A) (final : M unit) :
  (n1 + n2 <= n)%nat ->
  costs p n1 body -> costs p n2 final -> costs p n (try_finally body final).
Proof.
  intros Hle Hb Hf w. unfold try_finally.
  destruct (Hb w) as (es1 & Htr1 & Hc1).
  destruct (body w) as [r w1]; cbn [snd] in Htr1.
  destruct (Hf w1) as (es2 & Htr2 & Hc2).
  exists (es1 ++ es2)%list. split.
  - destruct (final w1) as [[u | e] w2]; cbn [snd] in *;
      now rewrite Htr2, Htr1, app_assoc.
  - rewrite count_events_app. lia.
Qed.

(** An operation of sqlite3: its event, and then the store alone. *)
Lemma costs_sql {A} (n : nat) (op : sql_op) (f : M A) :
  ((if p (Sql op) then 1 else 0) <= n)%nat ->
  (forall w, trace (snd (f w)) = trace w) ->
  costs p n (emit (Sql op) ;; f).
Proof.
  intros Hle Hf. apply (costs_bind n 0 n); [lia | now apply costs_emit |].
  intros _. now apply costs_quiet.
Qed.

Lemma costs_serve (n : nat) (view : M response) (w : world) :
  costs p n view ->
  exists es, trace (snd (serve view w)) = (trace w ++ es)%list
             /\ (count_events p es <= n)%nat.
Proof.
  intros H. destruct (H w) as (es & Htr & Hc). exists es.
  split; [| exact Hc]. unfold serve.
  destruct (view w) as [[r | e] w1]; exact Htr.
Qed.

End Costs.

(** The bound of a sequence is split between its first step and the rest;
    the first step gets the least share that suffices. *)
Ltac cost_split tac :=
  lazymatch goal with
  | |- costs _ ?n _ =>
      first
        [ solve [ tac 0%nat n ]
        | lazymatch n with
          | S ?n1 =>
              first
                [ solve [ tac 1%nat n1 ]
                | lazymatch n1 with
                  | S ?n2 =>
                      first
                        [ solve [ tac 2%nat n2 ]
                        | lazymatch n2 with
                          | S ?n3 => solve [ tac 3%nat n3 ]
                          end ]
                  end ]
          end ]
  end.

Ltac cost :=
  lazymatch goal with
  | H : costs ?p ?n ?m |- costs ?p ?n' ?m =>
      apply (costs_weaken p n n'); [lia | exact H]
  | |- costs _ _ (ret _) => apply costs_ret
  | |- costs _ _ (raise _) => apply costs_raise
  | |- costs _ _ (lift _) => apply costs_lift
  | |- costs _ _ (emit _) => apply costs_emit; cbn [is_groq is_post is_execute]; lia
  | |- costs _ _ sqlite3_connect =>
      apply costs_sql;
      [cbn [is_groq is_post is_execute]; lia | intros w; cbn; now destruct (db w)]
  | |- costs _ _ execute_create =>
      apply costs_sql;
      [cbn [is_groq is_post is_execute]; lia | intros w; cbn; now destruct (db w)]
  | |- costs _ _ execute_count =>
      apply costs_sql;
      [cbn [is_groq is_post is_execute]; lia | intros w; cbn; now destruct (db w)]
  | |- costs _ _ execute_select =>
      apply costs_sql;
      [cbn [is_groq is_post is_execute]; lia | intros w; cbn; now destruct (db w)]
  | |- costs _ _ (bind _ _) =>
      cost_split ltac:(fun a b =>
        apply (costs_bind _ a b); [lia | cost | intro; cost])
  | |- costs _ _ (try_except_sqlite _ _) =>
      cost_split ltac:(fun a b =>
        apply (costs_try_except_sqlite _ a b); [lia | cost | intro; cost])
  | |- costs _ _ (try_except _ _) =>
      cost_split ltac:(fun a b =>
        apply (costs_try_except _ a b); [lia | cost | intro; cost])
  | |- costs _ _ (try_finally _ _) =>
      cost_split ltac:(fun a b =>
        apply (costs_try_finally _ a b); [lia | cost | cost])
  | |- costs _ _ (if ?b then _ else _) => destruct b; cost
  | |- costs _ _ (match ?x with _ => _ end) => destruct x; cost
  | |- costs ?p ?n _ =>
      first
        [ solve [ apply (costs_weaken p 0%nat n); [lia | auto] ]
        | solve [ apply (costs_weaken p 1%nat n); [lia | auto] ]
        | solve [ apply (costs_weaken p 2%nat n); [lia | auto] ]
        | solve [ apply (costs_weaken p 3%nat n); [lia | auto] ] ]
  end.

(** [init_database] is no sequence of the combinators: its events are
    counted on each state of the store. *)
Lemma init_database_costs (p : event -> bool) (n : nat) :
  (count_events p (map Sql init_ops) <= n)%nat ->
  costs p n App.init_database.
Proof.
  intros Hn [d tr].
  destruct d as [err | | rows].
  - exists [Sql Connect]. split; [reflexivity |].
    cbn [count_events map init_ops] in *.
    repeat match goal with
           | H : context [if ?b then _ else _] |- _ => destruct b
           end; lia.
  - exists (map Sql init_ops). split; [| exact Hn].
    cbn. now rewrite <- !app_assoc.
  - exists (map Sql init_ops). split; [| exact Hn].
    cbn. now rewrite <- !app_assoc.
Qed.

Section Bounds.

Variable groq : chat_request -> outcome string.
Variable repr : pyval -> string.

(** *** Requests to the hosted model *)

Lemma app_fetch_no_model : costs is_groq 0 App.fetch_room_details.
Proof.
  unfold App.fetch_room_details, App.connect_to_db, conn_close. cost.
Qed.

Lemma app_classify_one_call (query : string) :
  costs is_groq 1 (App.classify_query groq query).
Proof. unfold App.classify_query. cost. Qed.

Lemma app_generate_one_call (query context : string) :
  costs is_groq 1 (App.generate_response groq query context).
Proof. unfold App.generate_response. cost. Qed.

Lemma main_two_calls (key : option string) (query : string) (clicked : bool) :
  costs is_groq 2 (App.main groq key query clicked).
Proof.
  pose proof app_fetch_no_model.
  pose proof app_classify_one_call.
  pose proof app_generate_one_call.
  assert (costs is_groq 0 App.init_database)
    by (apply init_database_costs; cbn; lia).
  unfold App.main, App.init_app, App.display. cost.
Qed.

Lemma api_fetch_no_model : costs is_groq 0 Twilioo.fetch_room_details.
Proof. unfold Twilioo.fetch_room_details, conn_close. cost. Qed.

Lemma api_classify_one_call (query : pyval) :
  costs is_groq 1 (Twilioo.classify_query groq repr query).
Proof. unfold Twilioo.classify_query. cost. Qed.

Lemma api_generate_one_call (query : pyval) (context : string) :
  costs is_groq 1 (Twilioo.generate_response groq repr query context).
Proof. unfold Twilioo.generate_response. cost. Qed.

Lemma handle_query_two_calls (data : pyval) :
  costs is_groq 2 (Twilioo.handle_query groq repr data).
Proof.
  pose proof api_fetch_no_model.
  pose proof api_classify_one_call.
  pose proof api_generate_one_call.
  unfold Twilioo.handle_query. cbv zeta. cost.
Qed.

Lemma webhook_two_calls (form : list (string * string)) :
  costs is_groq 2 (Twilioo.twilio_webhook groq repr form).
Proof.
  pose proof api_fetch_no_model.
  pose proof api_classify_one_call.
  pose proof api_generate_one_call.
  unfold Twilioo.twilio_webhook. cbv zeta. cost.
Qed.

(** X22.  A request adds to what has happened and never calls the hosted
    model more than twice: this holds for every run of the page, every
    POST /query and every message to the webhook, whatever the model and
    the store answer. *)
Theorem model_calls_are_bounded (w : world) :
  (forall key query clicked,
     exists es,
       trace (snd (App.main groq key query clicked w)) = (trace w ++ es)%list
       /\ (count_events is_groq es <= 2)%nat)
  /\ (forall data,
        exists es,
          trace (snd (serve (Twilioo.handle_query groq repr data) w)) =
            (trace w ++ es)%list
          /\ (count_events is_groq es <= 2)%nat)
  /\ (forall form,
        exists es,
          trace (snd (serve (Twilioo.twilio_webhook groq repr form) w)) =
            (trace w ++ es)%list
          /\ (count_events is_groq es <= 2)%nat).
Proof.
  repeat apply conj.
  - intros key query clicked. apply main_two_calls.
  - intros data. apply costs_serve, handle_query_two_calls.
  - intros form. apply costs_serve, webhook_two_calls.
Qed.

(** *** Statements on the store *)

Lemma app_fetch_one_statement : costs is_execute 1 App.fetch_room_details.
Proof.
  unfold App.fetch_room_details, App.connect_to_db, conn_close. cost.
Qed.

Lemma api_fetch_one_statement : costs is_execute 1 Twilioo.fetch_room_details.
Proof. unfold Twilioo.fetch_room_details, conn_close. cost. Qed.

Lemma app_classify_no_statement (query : string) :
  costs is_execute 0 (App.classify_query groq query).
Proof. unfold App.classify_query. cost. Qed.

Lemma app_generate_no_statement (query context : string) :
  costs is_execute 0 (App.generate_response groq query context).
Proof. unfold App.generate_response. cost. Qed.

Lemma api_classify_no_statement (query : pyval) :
  costs is_execute 0 (Twilioo.classify_query groq repr query).
Proof. unfold Twilioo.classify_query. cost. Qed.

Lemma api_generate_no_statement (query : pyval) (context : string) :
  costs is_execute 0 (Twilioo.generate_response groq repr query context).
Proof. unfold Twilioo.generate_response. cost. Qed.

(** X23.  A run of the page executes at most three statements on the
    store (the two of [init_database] and one [SELECT] of the rows); POST
    /query and the webhook execute at most one. *)
Theorem store_statements_are_bounded (w : world) :
  (forall key query clicked,
     exists es,
       trace (snd (App.main groq key query clicked w)) = (trace w ++ es)%list
       /\ (count_events is_execute es <= 3)%nat)
  /\ (forall data,
        exists es,
          trace (snd (serve (Twilioo.handle_query groq repr data) w)) =
            (trace w ++ es)%list
          /\ (count_events is_execute es <= 1)%nat)
  /\ (forall form,
        exists es,
          trace (snd (serve (Twilioo.twilio_webhook groq repr form) w)) =
            (trace w ++ es)%list
          /\ (count_events is_execute es <= 1)%nat).
Proof.
  pose proof app_fetch_one_statement.
  pose proof api_fetch_one_statement.
  pose proof app_classify_no_statement.
  pose proof app_generate_no_statement.
  pose proof api_classify_no_statement.
  pose proof api_generate_no_statement.
  assert (costs is_execute 2 App.init_database)
    by (apply init_database_costs; cbn; lia).
  repeat apply conj.
  - intros key query clicked.
    assert (Hmain : costs is_execute 3 (App.main groq key query clicked))
      by (unfold App.main, App.init_app, App.display; cost).
    apply Hmain.
  - intros data. apply costs_serve.
    unfold Twilioo.handle_query. cbv zeta. cost.
  - intros form. apply costs_serve.
    unfold Twilioo.twilio_webhook. cbv zeta. cost.
Qed.

End Bounds.

(** X24.  POST /send_email posts to the mail API at most once, whatever
    the body of the request and the reply of the API. *)
Theorem mail_is_posted_at_most_once
    (post : http_post -> outcome http_reply) (pkey sender : option string)
    (data : pyval) (w : world) :
  exists es,
    trace (snd (serve (Postmark.handle_send_email post pkey sender data) w)) =
      (trace w ++ es)%list
    /\ (count_events is_post es <= 1)%nat.
Proof.
  apply costs_serve.
  unfold Postmark.handle_send_email, Postmark.send_email. cbv zeta. cost.
Qed.

(** X25.  The two modules build the same context: on a table,
    [fetch_room_details] of app.py and of twilioo.py return the same text
    after the same operations on the store. *)
Theorem both_fetches_agree (rows : list row) (w : world) :
  db w = Table rows ->
  App.fetch_room_details w = Twilioo.fetch_room_details w.
Proof.
  intros H. now rewrite (app_fetch_table w rows H), (api_fetch_table w rows H).
Qed.

(** ** Instances of the further properties *)

Lemma page_without_api_key_witness :
  rendered (trace (snd (App.main (sample_groq "1") (Some "") sample_query true
                          (fresh (Table sample_rooms))))) =
    [StError "An error occurred: GROQ_API_KEY not found in environment variables. Please check your .env file.";
     StInfo "Please make sure you have set up your .env file with the GROQ_API_KEY"].
Proof.
  apply (page_without_api_key (sample_groq "1") (Some "") sample_query true
           (Table sample_rooms)).
  reflexivity.
Defined.

Lemma page_store_unavailable_witness :
  store_ops (trace (snd (App.main (sample_groq "1") sample_key sample_query true
                           (fresh (Unavailable "unable to open database file"))))) =
    [Connect].
Proof.
  apply (page_store_unavailable (sample_groq "1") sample_key sample_query true
           "unable to open database file").
  reflexivity.
Defined.

Lemma page_without_query_witness :
  rendered (trace (snd (App.main (sample_groq "1") sample_key "" true
                          (fresh NoTable)))) =
    (page_head ++ [StError "Please enter a query before submitting."])%list
  /\ classifier_calls (trace (snd (App.main (sample_groq "1") sample_key
                                     sample_query false (fresh NoTable)))) = [].
Proof.
  split.
  - apply (page_without_query (sample_groq "1") sample_key "" true NoTable);
      [reflexivity | reflexivity | now right].
  - apply (page_without_query (sample_groq "1") sample_key sample_query false
             NoTable); [reflexivity | reflexivity | now left].
Defined.

Lemma page_classifier_raises_witness :
  rendered (trace (snd (App.main failing_groq sample_key sample_query true
                          (fresh (Table sample_rooms))))) =
    (page_head ++
     [StError "Error classifying query: Connection error.";
      StError "Failed to classify your query. Please try again."])%list.
Proof.
  apply (page_classifier_raises failing_groq sample_key sample_query
           (ClientError "Connection error.") (Table sample_rooms));
    first [reflexivity | discriminate].
Defined.

Lemma page_shows_what_generate_returns_witness :
  rendered (trace (snd (App.main (classify_only_groq "2") sample_key
                          sample_query true (fresh (Table sample_rooms))))) =
    (page_head ++
     [StSuccess "Response:";
      StWrite "Error generating response: Connection error."])%list.
Proof.
  apply (page_shows_what_generate_returns (classify_only_groq "2") sample_key
           sample_query (Table sample_rooms));
    first [reflexivity | discriminate].
Defined.

Lemma page_generates_only_when_classified_witness :
  true = true /\ sample_query <> ""
  /\ (App.classify_result (sample_groq "1") sample_query = Some "1"
      \/ App.classify_result (sample_groq "1") sample_query = Some "2").
Proof.
  apply (page_generates_only_when_classified (sample_groq "1") sample_key
           sample_query true (Table sample_rooms)).
  vm_compute. discriminate.
Defined.

Lemma init_database_idempotent_witness :
  fst (App.init_database (fresh NoTable)) = Return tt
  /\ db (snd (App.init_database (fresh NoTable))) = Table []
  /\ db (snd (App.init_database (snd (App.init_database (fresh NoTable))))) =
       db (snd (App.init_database (fresh NoTable))).
Proof.
  apply (init_database_idempotent (fresh NoTable)). reflexivity.
Defined.

Lemma page_creates_missing_table_witness :
  generator_calls
    (trace (snd (App.main (sample_groq "1") sample_key sample_query true
                   (fresh NoTable)))) =
    [(PStr sample_query, "No room details available.")]
  /\ db (snd (App.main (sample_groq "1") sample_key sample_query true
                (fresh NoTable))) = Table [].
Proof.
  apply (page_creates_missing_table (sample_groq "1") sample_key sample_query);
    first [reflexivity | discriminate].
Defined.

Lemma query_is_required_witness :
  fst (serve (Twilioo.handle_query (sample_groq "1") sample_repr
                (PDict [("question", PStr sample_query)]))
         (fresh (Table sample_rooms))) =
    mkResponse (Json (PDict [("error", PStr "Query parameter is required")]))
      400 "application/json"
  /\ trace (snd (serve (Twilioo.handle_query (sample_groq "1") sample_repr
                          (PDict [("question", PStr sample_query)]))
                   (fresh (Table sample_rooms)))) = [].
Proof.
  apply (query_is_required (sample_groq "1") sample_repr
           [("question", PStr sample_query)] (Table sample_rooms)).
  reflexivity.
Defined.

Lemma api_classifier_raises_witness :
  status (fst (serve (Twilioo.handle_query failing_groq sample_repr
                        (PDict sample_body))
                 (fresh (Table sample_rooms)))) = 500
  /\ status (fst (serve (Twilioo.twilio_webhook failing_groq sample_repr
                           sample_form)
                    (fresh (Table sample_rooms)))) = 500.
Proof.
  destruct (api_classifier_raises failing_groq sample_repr
              (ClientError "Connection error.") (Table sample_rooms))
    as (Hq & Hw).
  split.
  - apply (Hq sample_body (PStr sample_query)); reflexivity.
  - apply (Hw sample_form "whatsapp:+910000000000" sample_query);
      first [reflexivity | discriminate].
Defined.

Lemma api_store_failure_witness :
  fst (serve (Twilioo.handle_query (sample_groq "1") sample_repr
                (PDict sample_body))
         (fresh NoTable)) = error_page
  /\ fst (serve (Twilioo.twilio_webhook (sample_groq "1") sample_repr sample_form)
            (fresh NoTable)) = error_page.
Proof.
  assert (Hno : forall rows, NoTable <> Table rows) by discriminate.
  destruct (api_store_failure (sample_groq "1") sample_repr NoTable Hno)
    as (Hq & Hw).
  split.
  - apply (Hq sample_body (PStr sample_query)); reflexivity.
  - apply (Hw sample_form "whatsapp:+910000000000" sample_query);
      first [reflexivity | discriminate].
Defined.

Lemma api_reply_is_verbatim_witness :
  fst (serve (Twilioo.handle_query (sample_groq "2") sample_repr
                (PDict sample_body))
         (fresh NoTable)) =
    mkResponse (Json (PDict [("response", PStr "Welcome to Thira Beach Home!")]))
      200 "application/json"
  /\ fst (serve (Twilioo.twilio_webhook (sample_groq "2") sample_repr sample_form)
            (fresh NoTable)) =
       mkResponse (TwiML "Welcome to Thira Beach Home!") 200 "application/xml".
Proof.
  destruct (api_reply_is_verbatim (sample_groq "2") sample_repr NoTable)
    as (Hq & Hw).
  split.
  - apply (Hq sample_body (PStr sample_query)); reflexivity.
  - apply (Hw sample_form "whatsapp:+910000000000" sample_query);
      first [reflexivity | discriminate].
Defined.

Lemma webhook_ignores_the_number_witness :
  serve (Twilioo.twilio_webhook (sample_groq "2") sample_repr sample_form)
    (fresh NoTable) =
  serve (Twilioo.twilio_webhook (sample_groq "2") sample_repr
           [("Body", sample_query); ("From", "whatsapp:+911111111111")])
    (fresh NoTable).
Proof.
  apply (webhook_ignores_the_number (sample_groq "2") sample_repr
           sample_form
           [("Body", sample_query); ("From", "whatsapp:+911111111111")]
           (fresh NoTable));
    reflexivity.
Defined.

Lemma api_generates_only_when_classified_witness :
  exists msg,
    Twilioo.form_get "Body" sample_form = Some msg
    /\ (Twilioo.classify_result (sample_groq "2") sample_repr (PStr msg) = Return "1"
        \/ Twilioo.classify_result (sample_groq "2") sample_repr (PStr msg) = Return "2").
Proof.
  apply (proj2 (api_generates_only_when_classified (sample_groq "2") sample_repr
                  NoTable) sample_form).
  vm_compute. discriminate.
Defined.

Lemma body_must_be_an_object_witness :
  serve (Twilioo.handle_query (sample_groq "1") sample_repr (PList []))
    (fresh NoTable) = (error_page, fresh NoTable)
  /\ serve (Postmark.handle_send_email sample_post None None (PList []))
       (fresh NoTable) = (error_page, fresh NoTable).
Proof.
  apply (body_must_be_an_object (sample_groq "1") sample_repr sample_post
           None None (PList []) (fresh NoTable)).
  discriminate.
Defined.

Lemma mail_refusal_is_answered_200_witness :
  fst (serve (Postmark.handle_send_email refusing_post None None
                (PDict [("email", PStr "guest@example.com")]))
         (fresh NoTable)) =
    mkResponse
      (Json (PDict [("success", PBool false); ("error", PStr "Unauthorized")]))
      200 "application/json".
Proof.
  apply (mail_refusal_is_answered_200 refusing_post None None
           [("email", PStr "guest@example.com")] NoTable
           (mkReply 401 "Unauthorized"));
    reflexivity.
Defined.

Lemma mail_is_posted_once_witness :
  http_posts
    (trace (snd (serve (Postmark.handle_send_email sample_post
                          (Some "token") (Some "desk@example.com")
                          (PDict [("email", PStr "guest@example.com");
                                  ("subject", PStr "Your room")]))
                   (fresh NoTable)))) =
    [mkPost "https://api.postmarkapp.com/email"
       [("Accept", PStr "application/json");
        ("Content-Type", PStr "application/json");
        ("X-Postmark-Server-Token", PStr "token")]
       (PDict [("From", PStr "desk@example.com");
               ("To", PStr "guest@example.com");
               ("Subject", PStr "Your room");
               ("TextBody", PStr "Here are the details of the available rooms.")])].
Proof.
  apply (mail_is_posted_once sample_post (Some "token") (Some "desk@example.com")
           [("email", PStr "guest@example.com"); ("subject", PStr "Your room")]
           NoTable).
  reflexivity.
Defined.


Lemma context_length_witness :
  exists context,
    fst (App.fetch_room_details (fresh (Table sample_rooms))) = Return context
    /\ fst (Twilioo.fetch_room_details (fresh (Table sample_rooms))) = Return context
    /\ String.length context = 77%nat.
Proof.
  exact (context_length sample_rooms (fresh (Table sample_rooms)) eq_refl).
Defined.

Lemma context_of_appended_rows_witness :
  combined_description (sample_rooms ++ sample_rooms) =
    combined_description sample_rooms ++ (nl ++ nl)
    ++ combined_description sample_rooms.
Proof.
  apply (context_of_appended_rows sample_rooms sample_rooms); discriminate.
Defined.

Lemma both_fetches_agree_witness :
  App.fetch_room_details (fresh (Table sample_rooms)) =
  Twilioo.fetch_room_details (fresh (Table sample_rooms)).
Proof.
  apply (both_fetches_agree sample_rooms (fresh (Table sample_rooms))).
  reflexivity.
Defined.

Lemma webhook_details_are_never_empty_witness :
  exists context,
    generator_calls
      (trace (snd (serve (Twilioo.twilio_webhook
                            (fun req => match messages req with
                                        | [_] => Return "1"
                                        | _ => Return "No details found for that number."
                                        end)
                            sample_repr sample_form)
                     (fresh (Table []))))) =
      [(PStr sample_query, context)]
    /\ match messages (Twilioo.generate_request sample_query context) with
       | [_] => Return "1"
       | _ => Return "No details found for that number."
       end = Return "No details found for that number.".
Proof.
  apply (webhook_details_are_never_empty
           (fun req => match messages req with
                       | [_] => Return "1"
                       | _ => Return "No details found for that number."
                       end)
           sample_repr sample_form "whatsapp:+910000000000" sample_query
           (Table []));
    first [reflexivity | discriminate].
Defined.
